(** * Verification of [scripts/setup-chromadb.py]

    The script seeds a ChromaDB vector store with two static catalogs
    (relationship themes and game contexts), computing embeddings with a
    sentence-transformer model, and then runs four similarity queries.

    The development has four layers:
    - Python-level helpers ([py_join], [py_in], exceptions, metadata values);
    - the two static catalogs, transcribed from the source;
    - a reference model of the two external collaborators the script talks
      to (the ChromaDB client and the embedding model), as a state and
      exception monad over a store, a call trace and a log;
    - the script's functions, written in that monad, and the theorems. *)

From Stdlib Require Import ZArith.
From stdpp Require Import base tactics option list strings pretty gmap.

Set Default Proof Using "Type".
Local Open Scope string_scope.
Local Open Scope list_scope.

(** ** Python strings *)

Module Py.

(** [sep.join(parts)]. *)
Fixpoint py_join (sep : string) (parts : list string) : string :=
  match parts with
  | [] => EmptyString
  | [p] => p
  | p :: rest => p ++ sep ++ py_join sep rest
  end.

(** [s.startswith(p)]. *)
Fixpoint startswith (p s : string) : bool :=
  match p, s with
  | EmptyString, _ => true
  | String a p', String b s' => if decide (a = b) then startswith p' s' else false
  | String _ _, EmptyString => false
  end.

(** [needle in hay] on strings: some suffix of [hay] starts with [needle]. *)
Fixpoint py_in (needle hay : string) : bool :=
  startswith needle hay ||
  match hay with
  | EmptyString => false
  | String _ hay' => py_in needle hay'
  end.

(** [str(n)] for a length. *)
Definition str_of_nat (n : nat) : string := pretty n.

(** An exception object: its class name and the text [str(e)] yields. *)
Record exn := Exn { exn_class : string; exn_str : string }.

(** The value a function of the script returns: [None], or an integer. *)
Inductive value :=
| VNone
| VInt (n : Z).

#[global] Instance exn_eq_dec : EqDecision exn.
Proof. solve_decision. Defined.

#[global] Instance value_eq_dec : EqDecision value.
Proof. solve_decision. Defined.

End Py.
Export Py.

(** ** The seed catalogs *)

(** An entry of [RELATIONSHIP_THEMES]: a dict with the four keys
    ["id"], ["theme"], ["description"], ["examples"]. *)
Record theme_record := {
  theme_id : string;
  theme : string;
  description : string;
  examples : list string
}.

(** An entry of the list [game_contexts] local to
    [populate_game_contexts]: keys ["id"], ["context"], ["game_id"],
    ["rationale"], ["themes"]. *)
Record game_context := {
  ctx_id : string;
  ctx_context : string;
  game_id : string;
  rationale : string;
  themes : list string
}.

#[global] Instance theme_record_eq_dec : EqDecision theme_record.
Proof. solve_decision. Defined.

#[global] Instance game_context_eq_dec : EqDecision game_context.
Proof. solve_decision. Defined.

Definition RELATIONSHIP_THEMES : list theme_record :=
  [
    {| theme_id := "resentment";
     theme := "resentment";
     description := "Built-up anger, frustration, or bitterness toward partner";
     examples :=
       [ "You never help with anything";
         "I'm tired of doing everything myself";
         "You don't appreciate what I do";
         "I feel taken for granted";
         "You always leave me to handle things alone" ] |};
    {| theme_id := "disconnection";
     theme := "disconnection";
     description := "Feeling emotionally distant or unconnected from partner";
     examples :=
       [ "We feel like roommates";
         "I miss feeling close to you";
         "We don't talk anymore";
         "I feel alone even when you're here";
         "We're living parallel lives" ] |};
    {| theme_id := "household_labor";
     theme := "household_labor";
     description := "Conflicts about division of housework and domestic responsibilities";
     examples :=
       [ "You never do the dishes";
         "I'm tired of cleaning up after you";
         "The house is always a mess";
         "I do all the cooking and cleaning";
         "You don't notice when things need to be done" ] |};
    {| theme_id := "appreciation";
     theme := "appreciation";
     description := "Need for recognition and gratitude from partner";
     examples :=
       [ "You don't see everything I do";
         "I wish you'd notice my efforts";
         "I need more acknowledgment";
         "You take me for granted";
         "I work hard and get no thanks" ] |};
    {| theme_id := "communication";
     theme := "communication";
     description := "Issues with how partners talk to each other";
     examples :=
       [ "You never listen to me";
         "You interrupt me constantly";
         "We can't have a conversation without fighting";
         "You shut down when I try to talk";
         "You don't hear what I'm saying" ] |};
    {| theme_id := "time_together";
     theme := "time_together";
     description := "Desire for more quality time and attention from partner";
     examples :=
       [ "We never spend time together";
         "You're always on your phone";
         "You prioritize everything over us";
         "I miss our connection time";
         "We need more couple time" ] |};
    {| theme_id := "financial_stress";
     theme := "financial_stress";
     description := "Money-related tensions and disagreements";
     examples :=
       [ "We can't afford this";
         "You spend too much money";
         "I'm worried about our finances";
         "We have different spending priorities";
         "Money is always tight" ] |};
    {| theme_id := "intimacy";
     theme := "intimacy";
     description := "Physical and emotional intimacy concerns";
     examples :=
       [ "We're not intimate anymore";
         "I miss physical closeness";
         "You don't initiate affection";
         "I feel rejected when you pull away";
         "We've lost our spark" ] |};
    {| theme_id := "parenting";
     theme := "parenting";
     description := "Disagreements about child-rearing and parenting approaches";
     examples :=
       [ "You're too strict with the kids";
         "I do all the parenting work";
         "We disagree on discipline";
         "You don't help with bedtime";
         "The kids listen to you but not me" ] |};
    {| theme_id := "trust";
     theme := "trust";
     description := "Issues with honesty, reliability, and faith in partner";
     examples :=
       [ "I don't trust you anymore";
         "You broke your promise again";
         "I can't rely on you";
         "You hide things from me";
         "I need to know you're being honest" ] |};
    {| theme_id := "control";
     theme := "control";
     description := "Power dynamics and control issues in the relationship";
     examples :=
       [ "You always have to be right";
         "You make all the decisions";
         "I feel controlled by you";
         "You don't consider my opinions";
         "It's your way or the highway" ] |};
    {| theme_id := "support";
     theme := "support";
     description := "Need for emotional and practical support from partner";
     examples :=
       [ "You're not there for me";
         "I need you to have my back";
         "You don't support my dreams";
         "I feel like I'm on my own";
         "You don't encourage me" ] |};
    {| theme_id := "in_laws";
     theme := "in_laws";
     description := "Conflicts involving extended family members";
     examples :=
       [ "Your mother interferes too much";
         "You always side with your family";
         "I don't feel welcome with your relatives";
         "Your parents don't respect me";
         "Family events are stressful" ] |};
    {| theme_id := "jealousy";
     theme := "jealousy";
     description := "Feelings of jealousy or insecurity about partner's relationships";
     examples :=
       [ "You flirt with other people";
         "I feel threatened by your friend";
         "You give others more attention";
         "I'm worried about your coworker";
         "You text them too much" ] |};
    {| theme_id := "personal_growth";
     theme := "personal_growth";
     description := "Individual development and self-improvement journeys";
     examples :=
       [ "You don't support my goals";
         "I'm growing and you're staying the same";
         "We want different things now";
         "I need space to develop myself";
         "You hold me back from changing" ] |}
  ].

Definition game_contexts : list game_context :=
  [
    {| ctx_id := "iwr_daily_checkin";
     ctx_context := "daily emotional check-in feeling disconnected need quick connection";
     game_id := "iwr";
     rationale := "Quick daily emotional check-in to rebuild connection";
     themes := ["disconnection"; "communication"] |};
    {| ctx_id := "pause_conflict_spiral";
     ctx_context := "arguing fighting conflict spiraling elevated emotions";
     game_id := "pause";
     rationale := "Stop the conflict spiral and take accountability";
     themes := ["communication"; "control"] |};
    {| ctx_id := "and_what_else_resentment";
     ctx_context := "built up resentment anger frustration unexpressed";
     game_id := "and_what_else";
     rationale := "Clear accumulated resentments safely";
     themes := ["resentment"; "communication"] |};
    {| ctx_id := "pillar_talk_foundation";
     ctx_context := "relationship foundation values principles basic connection";
     game_id := "pillar_talk";
     rationale := "Reconnect with relationship foundations";
     themes := ["support"; "communication"] |};
    {| ctx_id := "closeness_counter_intimacy";
     ctx_context := "feeling distant disconnected roommates physical emotional distance";
     game_id := "closeness_counter";
     rationale := "Explore physical and emotional distance patterns";
     themes := ["disconnection"; "intimacy"] |};
    {| ctx_id := "switch_perspective_taking";
     ctx_context := "different views opinions perspective understanding disagreement";
     game_id := "switch";
     rationale := "Build empathy by arguing partner's position";
     themes := ["communication"; "control"] |};
    {| ctx_id := "bomb_squad_recurring_issue";
     ctx_context := "same fight recurring issue never resolved keeps coming up";
     game_id := "bomb_squad";
     rationale := "Systematically defuse a recurring conflict";
     themes := ["communication"; "resentment"] |};
    {| ctx_id := "seven_nights_vulnerability";
     ctx_context := "need vulnerability sharing truth deeper connection intimacy";
     game_id := "seven_nights";
     rationale := "Build vulnerability and truth-sharing muscle";
     themes := ["intimacy"; "trust"] |}
  ].

(** ** Metadata, entries and the document store *)

(** A metadata value: the script stores strings and one integer. *)
Inductive meta_value :=
| MStr (s : string)
| MInt (n : Z).

#[global] Instance meta_value_eq_dec : EqDecision meta_value.
Proof. solve_decision. Defined.

(** [str(v)], as an f-string renders it. *)
Definition str_of_meta (v : meta_value) : string :=
  match v with
  | MStr s => s
  | MInt n => pretty n
  end.

(** A metadata dict. *)
Abbreviation metadata := (gmap string meta_value).

(** A [chromadb.Collection] object: the name it was obtained under and
    the identifier the server gave the collection. *)
Record handle := Handle { h_name : string; h_uuid : N }.

#[global] Instance handle_eq_dec : EqDecision handle.
Proof. solve_decision. Defined.

(** A [chromadb.Client] object. *)
Record client := Client { cl_host : string; cl_port : Z }.

(** A Python dict from names to collection objects; iteration follows
    insertion order, so it is kept as an association list. *)
Abbreviation pydict := (list (string * handle)).

(** [d[k] = v]: replace in place, or append a new key at the end. *)
Fixpoint dict_set (k : string) (v : handle) (d : pydict) : pydict :=
  match d with
  | [] => [(k, v)]
  | (k', v') :: d' =>
      if decide (k' = k) then (k, v) :: d' else (k', v') :: dict_set k v d'
  end.

Fixpoint dict_lookup (k : string) (d : pydict) : option handle :=
  match d with
  | [] => None
  | (k', v') :: d' => if decide (k' = k) then Some v' else dict_lookup k d'
  end.

Inductive log_level := INFO | ERROR.

(** How a call ends: it returns a value or raises an exception. *)
Inductive outcome (A : Type) :=
| Ok (a : A)
| Raise (e : exn).
Arguments Ok {A} a.
Arguments Raise {A} e.

(** The embedding vectors and the distances of the store are floating
    point data the script never inspects: the types [vector] and
    [distance] stay abstract throughout. *)

(** One stored record: document text, metadata and embedding. *)
Record entry (vector : Type) := Entry {
  e_document : string;
  e_metadata : metadata;
  e_embedding : vector
}.
Arguments Entry {vector} _ _ _.
Arguments e_document {vector} _.
Arguments e_metadata {vector} _.
Arguments e_embedding {vector} _.

(** A collection on the server. *)
Record collection (vector : Type) := Collection {
  c_uuid : N;
  c_metadata : metadata;
  c_entries : gmap string (entry vector)
}.
Arguments Collection {vector} _ _ _.
Arguments c_uuid {vector} _.
Arguments c_metadata {vector} _.
Arguments c_entries {vector} _.

(** The server: its collections by name and the next free identifier. *)
Record store (vector : Type) := Store {
  collections : gmap string (collection vector);
  next_uuid : N
}.
Arguments Store {vector} _ _.
Arguments collections {vector} _.
Arguments next_uuid {vector} _.

(** The result of [collection.query]: one row per query text under each
    of the keys ["documents"], ["metadatas"], ["distances"]. A record
    stored without metadata comes back with [None]. *)
Record query_result (distance : Type) := QueryResult {
  qr_documents : list (list string);
  qr_metadatas : list (list (option metadata));
  qr_distances : list (list distance)
}.
Arguments QueryResult {distance} _ _ _.
Arguments qr_documents {distance} _.
Arguments qr_metadatas {distance} _.
Arguments qr_distances {distance} _.

(** Every call that leaves the process. *)
Inductive event (vector : Type) :=
| EvHttpClient (host : string) (port : Z)
| EvCreateCollection (name : string) (md : metadata)
| EvGetCollection (name : string)
| EvSentenceTransformer (model_name : string)
| EvEncode (model_name : string) (texts : list string)
| EvAdd (h : handle) (documents : list string) (metadatas : list metadata)
        (ids : list string) (embeddings : list vector)
| EvQuery (h : handle) (query_texts : list string) (n_results : nat)
| EvCount (h : handle).
Arguments EvHttpClient {vector} _ _.
Arguments EvCreateCollection {vector} _ _.
Arguments EvGetCollection {vector} _.
Arguments EvSentenceTransformer {vector} _.
Arguments EvEncode {vector} _ _.
Arguments EvAdd {vector} _ _ _ _ _.
Arguments EvQuery {vector} _ _ _.
Arguments EvCount {vector} _.

(** The state the script runs against: the server, the calls made so
    far, and what was logged. *)
Record world (vector : Type) := World {
  w_store : store vector;
  w_trace : list (event vector);
  w_log : list (log_level * string)
}.
Arguments World {vector} _ _ _.
Arguments w_store {vector} _.
Arguments w_trace {vector} _.
Arguments w_log {vector} _.

(** *** The external collaborators *)

(** What the script is run against. *)
Class Collaborators (vector distance : Type) := {
  (** [SentenceTransformer(model_name).encode(texts).tolist()]. *)
  encode : string → list string → list vector;
  (** The store's ranking: the [n_results] nearest entries of a
      collection for one query text, as (document, metadata, distance). *)
  nearest : gmap string (entry vector) → string → nat
            → list (string * option metadata * distance);
  (** Any external call can fail (connection lost, model file missing,
      server error): whether it does is decided by the calls made so
      far, the current one included. *)
  fault : list (event vector) → option exn;
  (** What [add] keeps for an id the collection already holds, given
      the stored entry and the offered one. ChromaDB's [add] keeps the
      stored entry; an upsert keeps the offered one. *)
  on_existing : entry vector → entry vector → entry vector;
  (** [json.dumps] on a list of strings, [f"{d:.3f}"] on a distance and
      [int] on a string. *)
  json_dumps : list string → string;
  format_3f : distance → string;
  py_int : string → option Z;
  (** [repr] on a string: which quotes it picks and what it escapes. *)
  py_repr : string → string;
  (** The exception the client raises for a collection that is not
      there; its class and its text differ between client versions. *)
  not_found : string → exn
}.

Section Model.

Context {vector distance : Type} {env : Collaborators vector distance}.

Local Abbreviation world := (world vector).
Local Abbreviation store := (store vector).
Local Abbreviation entry := (entry vector).
Local Abbreviation collection := (collection vector).
Local Abbreviation event := (event vector).
Local Abbreviation query_result := (query_result distance).

(** A computation may change the world and either returns or raises;
    what it did before raising stays done. *)
Definition M (A : Type) : Type := world → outcome A * world.

Definition ret {A} (a : A) : M A := λ w, (Ok a, w).

Definition raise {A} (e : exn) : M A := λ w, (Raise e, w).

Definition bind {A B} (m : M A) (k : A → M B) : M B :=
  λ w, match m w with
       | (Ok a, w') => k a w'
       | (Raise e, w') => (Raise e, w')
       end.

(** [try: m  except Exception as e: handler e]. The handler is run for
    every exception of the model. An [except Exception] clause lets
    KeyboardInterrupt, SystemExit and GeneratorExit pass, so what a
    theorem says a handler does is said of the other exceptions only. *)
Definition try_except {A} (m : M A) (handler : exn → M A) : M A :=
  λ w, match m w with
       | (Ok a, w') => (Ok a, w')
       | (Raise e, w') => handler e w'
       end.

Local Notation "x ← m ; k" := (bind m (λ x, k))
  (at level 20, m at level 100, k at level 200, only parsing).
Local Notation "m ;; k" := (bind m (λ _, k))
  (at level 100, k at level 200, only parsing, right associativity).

(** [for x in xs: body x]. *)
Fixpoint for_each {A} (xs : list A) (body : A → M unit) : M unit :=
  match xs with
  | [] => ret tt
  | x :: xs' => body x ;; for_each xs' body
  end.

(** [logger.info(msg)] and [logger.error(msg)]. *)
Definition logger (lvl : log_level) (msg : string) : M unit :=
  λ w, (Ok tt, World (w_store w) (w_trace w) (w_log w ++ [(lvl, msg)])).

(** An external call: it is recorded, then it fails if the environment
    says so, otherwise the store answers. *)
Definition external {A} (ev : event) (answer : store → outcome (A * store)) : M A :=
  λ w,
    let tr := w_trace w ++ [ev] in
    match fault tr with
    | Some e => (Raise e, World (w_store w) tr (w_log w))
    | None =>
        match answer (w_store w) with
        | Ok (a, s') => (Ok a, World s' tr (w_log w))
        | Raise e => (Raise e, World (w_store w) tr (w_log w))
        end
    end.

(** The collection a handle denotes, if it is still there. *)
Definition resolve (h : handle) (s : store) : option collection :=
  match collections s !! h_name h with
  | Some c => if decide (c_uuid c = h_uuid h) then Some c else None
  | None => None
  end.

(** What the client raises when the collection of that name is gone. *)
Definition no_such_collection (name : string) : exn := not_found name.

(** [chromadb.HttpClient(host=host, port=port)]. *)
Definition HttpClient (host : string) (port : Z) : M client :=
  external (EvHttpClient host port) (λ s, Ok (Client host port, s)).

(** [client.create_collection(name=name, metadata=md)]: fails when the
    name is taken, otherwise makes an empty collection. *)
Definition create_collection (_ : client) (name : string) (md : metadata) : M handle :=
  external (EvCreateCollection name md) (λ s,
    match collections s !! name with
    | Some _ =>
        Raise (Exn "UniqueConstraintError" ("Collection " ++ name ++ " already exists"))
    | None =>
        let c := Collection (next_uuid s) md ∅ in
        Ok (Handle name (next_uuid s),
            Store (<[name := c]> (collections s)) (N.succ (next_uuid s)))
    end).

(** [client.get_collection(name)]. *)
Definition get_collection (_ : client) (name : string) : M handle :=
  external (EvGetCollection name) (λ s,
    match collections s !! name with
    | Some c => Ok (Handle name (c_uuid c), s)
    | None => Raise (no_such_collection name)
    end).

(** The records an [add] call offers, by position. *)
Definition offered (documents : list string) (metadatas : list metadata)
    (ids : list string) (embeddings : list vector) : list (string * entry) :=
  zip ids (zip_with (λ d me, Entry d me.1 me.2) documents (zip metadatas embeddings)).

Definition add_entry (entries : gmap string entry) (r : string * entry)
    : gmap string entry :=
  match entries !! r.1 with
  | Some stored => <[r.1 := on_existing stored r.2]> entries
  | None => <[r.1 := r.2]> entries
  end.

(** [collection.add(documents=, metadatas=, ids=, embeddings=)]: the four
    lists must agree in length, [ids] must be non-empty and without
    repetition; then each record is stored under its id. *)
Definition collection_add (h : handle) (documents : list string)
    (metadatas : list metadata) (ids : list string) (embeddings : list vector)
    : M unit :=
  external (EvAdd h documents metadatas ids embeddings) (λ s,
    if negb (bool_decide (length documents = length ids
                          ∧ length metadatas = length ids
                          ∧ length embeddings = length ids))
    then Raise (Exn "ValueError" "Unequal lengths for fields")
    else if bool_decide (ids = [])
    then Raise (Exn "ValueError" "Expected IDs to be a non-empty list")
    else if negb (bool_decide (NoDup ids))
    then Raise (Exn "DuplicateIDError" "Expected IDs to be unique")
    else
      match resolve h s with
      | None => Raise (no_such_collection (h_name h))
      | Some c =>
          let entries := foldl add_entry (c_entries c)
                           (offered documents metadatas ids embeddings) in
          Ok (tt, Store (<[h_name h := Collection (c_uuid c) (c_metadata c) entries]>
                           (collections s))
                        (next_uuid s))
      end).

(** [collection.query(query_texts=, n_results=)]. *)
Definition collection_query (h : handle) (query_texts : list string) (n_results : nat)
    : M query_result :=
  external (EvQuery h query_texts n_results) (λ s,
    match resolve h s with
    | None => Raise (no_such_collection (h_name h))
    | Some c =>
        let rows := (λ q, nearest (c_entries c) q n_results) <$> query_texts in
        Ok (QueryResult ((λ row, (λ hit, hit.1.1) <$> row) <$> rows)
                        ((λ row, (λ hit, hit.1.2) <$> row) <$> rows)
                        ((λ row, (λ hit, hit.2) <$> row) <$> rows), s)
    end).

(** [collection.count()]. *)
Definition collection_count (h : handle) : M nat :=
  external (EvCount h) (λ s,
    match resolve h s with
    | None => Raise (no_such_collection (h_name h))
    | Some c => Ok (size (c_entries c), s)
    end).

(** [SentenceTransformer(model_name)] followed by [model.encode(texts).tolist()]. *)
Definition SentenceTransformer (model_name : string) : M string :=
  external (EvSentenceTransformer model_name) (λ s, Ok (model_name, s)).

Definition model_encode (model : string) (texts : list string) : M (list vector) :=
  external (EvEncode model texts) (λ s, Ok (encode model texts, s)).

(** *** Python subscripts *)

(** [collections[name]]. *)
Definition dict_getitem (d : pydict) (k : string) : M handle :=
  match dict_lookup k d with
  | Some h => ret h
  | None => raise (Exn "KeyError" ("'" ++ k ++ "'"))
  end.

(** [rows[0]]. *)
Definition getitem0 {A} (rows : list A) : M A :=
  match rows with
  | r :: _ => ret r
  | [] => raise (Exn "IndexError" "list index out of range")
  end.

(** [metadata[key]] on what a query returned. *)
Definition metadata_getitem (md : option metadata) (k : string) : M meta_value :=
  match md with
  | None => raise (Exn "TypeError" "'NoneType' object is not subscriptable")
  | Some d =>
      match d !! k with
      | Some v => ret v
      | None => raise (Exn "KeyError" ("'" ++ k ++ "'"))
      end
  end.

(** ** The script *)

(** [setup_chroma_client], lines 202-212. *)
Definition setup_chroma_client (host : string) (port : Z) : M client :=
  try_except
    (client ← HttpClient host port;
     logger INFO ("Connected to ChromaDB at " ++ host ++ ":" ++ pretty port);;
     ret client)
    (λ e,
     logger ERROR ("Failed to connect to ChromaDB: " ++ exn_str e);;
     raise e).

(** One of the three [try]/[except] statements of [create_collections]
    (lines 221-232, 235-246 and 249-260); they differ in the collection
    name and in the description only. *)
Definition create_collections_step (client : client) (name description : string)
    (collections : pydict) : M pydict :=
  try_except
    (h ← create_collection client name {[ "description" := MStr description ]};
     logger INFO ("Created " ++ name ++ " collection");;
     ret (dict_set name h collections))
    (λ e,
     if py_in "already exists" (exn_str e)
     then
       h ← get_collection client name;
       logger INFO ("Using existing " ++ name ++ " collection");;
       ret (dict_set name h collections)
     else raise e).

(** [create_collections], lines 214-262. *)
Definition create_collections (client : client) : M pydict :=
  let collections : pydict := [] in
  collections ← create_collections_step client "relationship_themes"
    "Semantic themes for relationship conflicts and conversations" collections;
  collections ← create_collections_step client "translator_history"
    "Historical translator outputs for pattern learning" collections;
  collections ← create_collections_step client "game_contexts"
    "Game recommendation contexts and patterns" collections;
  ret collections.

(** [generate_embeddings], lines 264-271. *)
Definition generate_embeddings (texts : list string) (model_name : string)
    : M (list vector) :=
  model ← SentenceTransformer model_name;
  embeddings ← model_encode model texts;
  logger INFO ("Generated " ++ str_of_nat (length embeddings) ++ " embeddings");;
  ret embeddings.

(** The default of [generate_embeddings]'s second argument. *)
Definition default_model_name : string := "all-MiniLM-L6-v2".

(** The f-string of line 286. *)
Definition text_content (theme_data : theme_record) : string :=
  theme theme_data ++ " " ++ description theme_data ++ " "
    ++ py_join " " (examples theme_data).

(** The metadata dict of lines 289-293. *)
Definition theme_metadata (theme_data : theme_record) : metadata :=
  {[ "theme" := MStr (theme theme_data);
     "description" := MStr (description theme_data);
     "examples_count" := MInt (Z.of_nat (length (examples theme_data))) ]}.

(** The loop of lines 284-295: three lists grown by [append]. *)
Definition prepare_themes (catalog : list theme_record)
    : list string * list metadata * list string :=
  foldl (λ '(documents, metadatas, ids) theme_data,
           (documents ++ [text_content theme_data],
            metadatas ++ [theme_metadata theme_data],
            ids ++ [theme_id theme_data]))
        ([], [], []) catalog.

(** The body of [populate_relationship_themes], lines 273-308, for the
    value the global [RELATIONSHIP_THEMES] holds when it runs. *)
Definition populate_relationship_themes_from (catalog : list theme_record)
    (collection : handle) : M value :=
  logger INFO "Populating relationship themes collection...";;
  let '(documents, metadatas, ids) := prepare_themes catalog in
  embeddings ← generate_embeddings documents default_model_name;
  collection_add collection documents metadatas ids embeddings;;
  logger INFO ("Added " ++ str_of_nat (length documents)
                 ++ " relationship themes to collection");;
  ret VNone.

Definition populate_relationship_themes (collection : handle) : M value :=
  populate_relationship_themes_from RELATIONSHIP_THEMES collection.

(** The metadata dict of lines 378-382. *)
Definition game_metadata (ctx : game_context) : metadata :=
  {[ "game_id" := MStr (game_id ctx);
     "rationale" := MStr (rationale ctx);
     "themes" := MStr (json_dumps (themes ctx)) ]}.

(** The body of [populate_game_contexts], lines 310-398, for the list
    its local [game_contexts] is bound to. *)
Definition populate_game_contexts_from (game_contexts : list game_context)
    (collection : handle) : M value :=
  logger INFO "Populating game contexts collection...";;
  let documents := ctx_context <$> game_contexts in
  let metadatas := game_metadata <$> game_contexts in
  let ids := ctx_id <$> game_contexts in
  embeddings ← generate_embeddings documents default_model_name;
  collection_add collection documents metadatas ids embeddings;;
  logger INFO ("Added " ++ str_of_nat (length documents)
                 ++ " game contexts to collection");;
  ret VNone.

Definition populate_game_contexts (collection : handle) : M value :=
  populate_game_contexts_from game_contexts collection.

(** [test_queries], lines 407-412. *)
Definition test_queries : list string :=
  [ "I'm so tired of doing all the housework";
    "We never spend time together anymore";
    "I don't trust you";
    "We keep fighting about the same thing" ].

(** [enumerate(zip(a, b, c))]. *)
Definition enumerate_zip3 {A B C} (a : list A) (b : list B) (c : list C)
    : list (nat * (A * B * C)) :=
  imap (λ i x, (i, x)) (zip (zip a b) c).

(** [test_similarity_search], lines 400-429. *)
Definition test_similarity_search (collections : pydict) : M value :=
  logger INFO "Testing similarity search...";;
  themes_collection ← dict_getitem collections "relationship_themes";
  for_each test_queries (λ query,
    results ← collection_query themes_collection [query] 3;
    logger INFO ("Query: '" ++ query ++ "'");;
    documents ← getitem0 (qr_documents results);
    metadatas ← getitem0 (qr_metadatas results);
    distances ← getitem0 (qr_distances results);
    for_each (enumerate_zip3 documents metadatas distances)
      (λ '(i, (doc, metadata, distance)),
       theme ← metadata_getitem metadata "theme";
       logger INFO ("  " ++ str_of_nat (i + 1) ++ ". Theme: " ++ str_of_meta theme
                      ++ " (distance: " ++ format_3f distance ++ ")"));;
    logger INFO EmptyString);;
  ret VNone.

(** [os.getenv(key, default)]. *)
Definition getenv (environ : gmap string string) (key default : string) : string :=
  match environ !! key with
  | Some v => v
  | None => default
  end.

(** [int(s)]; the error text shows the string as [repr] prints it. *)
Definition int_of_str (s : string) : M Z :=
  match py_int s with
  | Some n => ret n
  | None =>
      raise (Exn "ValueError" ("invalid literal for int() with base 10: " ++ py_repr s))
  end.

(** [main], lines 431-462, in the process environment [environ]. *)
Definition main (environ : gmap string string) : M value :=
  let chroma_host := getenv environ "CHROMA_HOST" "localhost" in
  chroma_port ← int_of_str (getenv environ "CHROMA_PORT" "8000");
  logger INFO "Starting ChromaDB setup for TERI Model...";;
  try_except
    (client ← setup_chroma_client chroma_host chroma_port;
     collections ← create_collections client;
     themes_collection ← dict_getitem collections "relationship_themes";
     populate_relationship_themes themes_collection;;
     games_collection ← dict_getitem collections "game_contexts";
     populate_game_contexts games_collection;;
     test_similarity_search collections;;
     logger INFO "ChromaDB setup completed successfully!";;
     for_each collections (λ '(name, collection),
       count ← collection_count collection;
       logger INFO ("Collection '" ++ name ++ "': " ++ str_of_nat count
                      ++ " documents"));;
     ret VNone)
    (λ e,
     logger ERROR ("Setup failed: " ++ exn_str e);;
     raise e).

End Model.

(** ** What the theorems speak about *)

(** The document of a theme record as the specification words it: the
    label, the description and the example phrases, joined by single
    spaces. *)
Definition joined_by_spaces (t : theme_record) : string :=
  String.concat " " (theme t :: description t :: examples t).

Definition is_Ok {A} (o : outcome A) : Prop :=
  match o with
  | Ok _ => True
  | Raise _ => False
  end.

Section Observations.

Context {vector distance : Type} {env : Collaborators vector distance}.

(** No external call fails. *)
Definition reliable : Prop :=
  ∀ tr : list (event vector), fault tr = None.

(** The embedding step returns one vector per text. *)
Definition batch_exact : Prop :=
  ∀ model texts, length (encode model texts) = length texts.

(** The records stored under a collection name (none when there is no
    such collection) and their number, which is what [count()] reports. *)
Definition entries_of (name : string) (s : store vector) : gmap string (entry vector) :=
  match collections s !! name with
  | Some c => c_entries c
  | None => ∅
  end.

Definition count_of (name : string) (s : store vector) : nat :=
  size (entries_of name s).

(** The handle denotes a collection of the store. *)
Definition live (h : handle) (s : store vector) : Prop :=
  is_Some (resolve h s).

Definition is_query (ev : event vector) : Prop :=
  match ev with
  | EvQuery _ _ _ => True
  | _ => False
  end.

(** [wp m w P]: running [m] in [w] ends in an outcome and a world that
    satisfy [P]. Runs are total functions, so this says what the run
    does, not only what it would do if it ended. *)
Definition wp {A} (m : M A) (w : world vector)
    (P : outcome A → world vector → Prop) : Prop :=
  P (m w).1 (m w).2.

(** The external calls a populate function makes when nothing stops it
    early: load the model, encode all documents, add. *)
Definition populate_calls (h : handle) (documents : list string)
    (metadatas : list metadata) (ids : list string) : list (event vector) :=
  [ EvSentenceTransformer default_model_name;
    EvEncode default_model_name documents;
    EvAdd h documents metadatas ids (encode default_model_name documents) ].

(** The entries of a collection after an [add] of the records given. *)
Definition entries_after_add (c : collection vector) (documents : list string)
    (metadatas : list metadata) (ids : list string) : gmap string (entry vector) :=
  foldl add_entry (c_entries c)
    (offered documents metadatas ids (encode default_model_name documents)).

(** How a populate function that handles the given documents,
    metadata and ids ends when started in [w]: the calls it has made
    are an initial part of [populate_calls]; when it returns, it has
    made them all, it returns [None], its last log line is [msg], the
    encoder gave one vector per id, and the store has changed in the entries of the collection of the
    handle only; when it raises, the store is as it was. *)
Definition populate_post (h : handle) (documents : list string)
    (metadatas : list metadata) (ids : list string) (msg : string)
    (w : world vector) (o : outcome value) (w' : world vector) : Prop :=
  ∃ evs,
    w_trace w' = w_trace w ++ evs
    ∧ evs `prefix_of` populate_calls h documents metadatas ids
    ∧ match o with
      | Ok v =>
          evs = populate_calls h documents metadatas ids
          ∧ v = VNone
          ∧ last (w_log w') = Some (INFO, msg)
          ∧ length (encode default_model_name documents) = length ids
          ∧ ∃ c, resolve h (w_store w) = Some c
                 ∧ w_store w'
                   = Store (<[h_name h :=
                               Collection (c_uuid c) (c_metadata c)
                                 (entries_after_add c documents metadatas ids)]>
                              (collections (w_store w)))
                           (next_uuid (w_store w))
      | Raise _ => w_store w' = w_store w
      end.

(** The collection already holds a record under each of the ids. *)
Definition holds_ids (c : collection vector) (ids : list string) : Prop :=
  Forall (λ i, is_Some (c_entries c !! i)) ids.

(** [w'] comes from [w] by query calls alone: the store is the same
    and the trace has grown by queries only. *)
Definition read_only (w w' : world vector) : Prop :=
  w_store w' = w_store w
  ∧ ∃ evs, w_trace w' = w_trace w ++ evs ∧ Forall is_query evs.

(** Between two stores, no records were added to, changed in or
    removed from any collection whose name is not listed, and no
    collection has disappeared. *)
Definition writes_only (names : list string) (s s' : store vector) : Prop :=
  (∀ n, n ∉ names → entries_of n s' = entries_of n s)
  ∧ (∀ n, is_Some (collections s !! n) → is_Some (collections s' !! n)).

End Observations.

(** ** A sample environment

    Embeddings are string lengths, the ranking lists the first entries
    of the collection at distance 0, nothing fails, and [add] keeps
    what is stored. Its [repr] is right for strings of letters, digits
    and spaces, which is all it is used on. *)
Module Sample.

Definition sample_nearest (entries : gmap string (entry nat)) (q : string) (n : nat)
    : list (string * option metadata * nat) :=
  take n ((λ kv, (e_document kv.2, Some (e_metadata kv.2), 0)) <$> map_to_list entries).

Definition sample : Collaborators nat nat := {|
  encode := λ _ texts, String.length <$> texts;
  nearest := sample_nearest;
  fault := λ _, None;
  on_existing := λ stored _, stored;
  json_dumps := λ l, ("[" ++ py_join ", " l ++ "]")%string;
  format_3f := λ d, (pretty d ++ ".000")%string;
  py_int := λ s, if decide (s = "8000") then Some 8000%Z else None;
  py_repr := λ s, ("'" ++ s ++ "'")%string;
  not_found := λ name,
    Exn "NotFoundError" ("Collection [" ++ name ++ "] does not exist")
|}.

(** A server without collections, before any call. *)
Definition fresh : world nat := World (Store ∅ 0) [] [].

(** The world after [create_collections] has run on [fresh], and the
    handle it returns for the themes. *)
Definition created : world nat :=
  (create_collections (env := sample) (Client "localhost" 8000) fresh).2.

Definition themes_handle : handle := Handle "relationship_themes" 0.

Definition games_handle : handle := Handle "game_contexts" 2.

(** The empty themes collection of [created]. *)
Definition empty_themes : collection nat :=
  Collection 0
    {[ "description" :=
         MStr "Semantic themes for relationship conflicts and conversations" ]} ∅.

(** The world after a whole run of [main] on [fresh], and its two
    populated collections. *)
Definition seeded : world nat := (main (env := sample) ∅ fresh).2.

Definition seeded_themes : collection nat :=
  default empty_themes (resolve themes_handle (w_store seeded)).

Definition seeded_games : collection nat :=
  default empty_themes (resolve games_handle (w_store seeded)).

(** The same environment, except that the server refuses every
    [create_collection] call. *)
Definition denied : exn := Exn "ConnectionError" "connection refused".


End Sample.

(** ** Further observations and scenarios *)

Section Calls.

Context {vector : Type}.

(** The query calls of the verifier on a handle: one per query text,
    each for the three nearest records. *)
Definition query_calls (h : handle) (queries : list string) : list (event vector) :=
  (λ query, EvQuery h [query] 3) <$> queries.

(** The [count()] calls of the report at the end of [main]. *)
Definition count_calls (d : pydict) : list (event vector) :=
  (λ kv, EvCount kv.2) <$> d.

End Calls.

(** The report line of line 458. *)
Definition report_line (name : string) (count : nat) : log_level * string :=
  (INFO, ("Collection '" ++ name ++ "': " ++ str_of_nat count ++ " documents")%string).

Section Failures.

Context {vector distance : Type} {env : Collaborators vector distance}.


(** The external call is the [add] of a populate function. *)
Definition is_add (ev : event vector) : Prop :=
  match ev with
  | EvAdd _ _ _ _ _ => True
  | _ => False
  end.

End Failures.

(** The exceptions an [except Exception] clause catches: all but those
    of the three built-in classes that are not exceptions in this sense. *)
Definition caught_by_except_Exception (e : exn) : Prop :=
  exn_class e ∉ ["KeyboardInterrupt"; "SystemExit"; "GeneratorExit"].

Module Scenarios.

Import Sample.

(** The sample environment with a server that cannot be reached. *)
Definition unreachable : Collaborators nat nat := {|
  encode := encode (Collaborators := sample);
  nearest := sample_nearest;
  fault := λ tr, match last tr with
                 | Some (EvHttpClient _ _) => Some denied
                 | _ => None
                 end;
  on_existing := λ stored _, stored;
  json_dumps := json_dumps (Collaborators := sample);
  format_3f := format_3f (Collaborators := sample);
  py_int := py_int (Collaborators := sample);
  py_repr := py_repr (Collaborators := sample);
  not_found := not_found (Collaborators := sample)
|}.

(** The sample environment with a server that answers every
    [create_collection] call with a failure of another kind whose text
    happens to contain the words the script looks for. *)
Definition other_conflict : exn :=
  Exn "UniqueConstraintError" "Tenant default already exists".

Definition confusing : Collaborators nat nat := {|
  encode := encode (Collaborators := sample);
  nearest := sample_nearest;
  fault := λ tr, match last tr with
                 | Some (EvCreateCollection _ _) => Some other_conflict
                 | _ => None
                 end;
  on_existing := λ stored _, stored;
  json_dumps := json_dumps (Collaborators := sample);
  format_3f := format_3f (Collaborators := sample);
  py_int := py_int (Collaborators := sample);
  py_repr := py_repr (Collaborators := sample);
  not_found := not_found (Collaborators := sample)
|}.

(** The sample environment with a server that refuses to create the
    translator_history collection. *)
Definition history_refused : Collaborators nat nat := {|
  encode := encode (Collaborators := sample);
  nearest := sample_nearest;
  fault := λ tr, match last tr with
                 | Some (EvCreateCollection name _) =>
                     if decide (name = "translator_history") then Some denied else None
                 | _ => None
                 end;
  on_existing := λ stored _, stored;
  json_dumps := json_dumps (Collaborators := sample);
  format_3f := format_3f (Collaborators := sample);
  py_int := py_int (Collaborators := sample);
  py_repr := py_repr (Collaborators := sample);
  not_found := not_found (Collaborators := sample)
|}.

(** The sample environment with a model that loads but cannot encode. *)
Definition out_of_memory : exn := Exn "RuntimeError" "out of memory".

Definition encoder_down : Collaborators nat nat := {|
  encode := encode (Collaborators := sample);
  nearest := sample_nearest;
  fault := λ tr, match last tr with
                 | Some (EvEncode _ _) => Some out_of_memory
                 | _ => None
                 end;
  on_existing := λ stored _, stored;
  json_dumps := json_dumps (Collaborators := sample);
  format_3f := format_3f (Collaborators := sample);
  py_int := py_int (Collaborators := sample);
  py_repr := py_repr (Collaborators := sample);
  not_found := not_found (Collaborators := sample)
|}.


(** A dict that files the game-contexts collection under the key the
    verifier reads, and the first hit of its first query there. *)
Definition mislabeled : pydict := [("relationship_themes", games_handle)].

Definition first_hit : string * option metadata * nat :=
  default (EmptyString, None, 0)
    (head (sample_nearest (c_entries seeded_games)
             "I'm so tired of doing all the housework" 3)).


End Scenarios.

(** * Theorems *)

(** ** Python strings *)

Lemma append_String (a : Ascii.ascii) (p q : string) :
  (String a p ++ q)%string = String a (p ++ q)%string.
Proof. reflexivity. Qed.

Lemma startswith_spec (p s : string) :
  startswith p s = true ↔ ∃ post, s = (p ++ post)%string.
Proof.
  revert s. induction p as [|a p IH]; intros s; simpl.
  - split; [intros _; by exists s | done].
  - destruct s as [|b s].
    + split; [done | intros [post Hpost]; discriminate].
    + setoid_rewrite append_String. case_decide as Hab.
      * subst b. rewrite IH. split.
        -- intros [post ->]. by exists post.
        -- intros [post Hpost]. injection Hpost as ->. by exists post.
      * split; [done | intros [post Hpost]; congruence].
Qed.

(** [py_in] is the substring test. *)
Lemma py_in_spec (needle hay : string) :
  py_in needle hay = true ↔ ∃ pre post, hay = (pre ++ needle ++ post)%string.
Proof.
  induction hay as [|b hay IH]; simpl.
  - rewrite orb_false_r, startswith_spec. split.
    + intros [post ->]. by exists EmptyString, post.
    + intros [[|c pre] [post Hpost]]; [by exists post | discriminate].
  - rewrite orb_true_iff, startswith_spec, IH. split.
    + intros [[post ->] | (pre & post & ->)].
      * by exists EmptyString, post.
      * by exists (String b pre), post.
    + intros [[|c pre] [post Hpost]].
      * left. by exists post.
      * right. rewrite append_String in Hpost. injection Hpost as -> ->. by exists pre, post.
Qed.

Lemma py_join_concat (sep : string) (parts : list string) :
  py_join sep parts = String.concat sep parts.
Proof.
  induction parts as [|p [|q rest] IH]; [done | done |].
  change ((p ++ sep ++ py_join sep (q :: rest))%string
          = (p ++ sep ++ String.concat sep (q :: rest))%string).
  by rewrite IH.
Qed.

(** With at least one example phrase, the f-string of line 286 is the
    three parts joined by single spaces. *)
Lemma text_content_joined (t : theme_record) :
  examples t ≠ [] → text_content t = joined_by_spaces t.
Proof.
  intros Hex. unfold text_content, joined_by_spaces.
  rewrite py_join_concat. destruct (examples t) as [|e es]; [done |]. done.
Qed.

(** ** The catalogs *)

Lemma catalog_ids_distinct :
  NoDup (theme_id <$> RELATIONSHIP_THEMES) ∧ NoDup (ctx_id <$> game_contexts).
Proof. split; apply (bool_decide_unpack _); vm_compute; exact I. Qed.

Lemma catalogs_not_empty : RELATIONSHIP_THEMES ≠ [] ∧ game_contexts ≠ [].
Proof. done. Qed.

(** C6. No two records of [RELATIONSHIP_THEMES] share an id, and no two
    records of [game_contexts] share an id: records at two different
    positions of a catalog carry different ids. *)
Theorem catalog_ids_unique (i j : nat) :
  i ≠ j →
  (∀ t1 t2, RELATIONSHIP_THEMES !! i = Some t1 → RELATIONSHIP_THEMES !! j = Some t2 →
            theme_id t1 ≠ theme_id t2)
  ∧ (∀ c1 c2, game_contexts !! i = Some c1 → game_contexts !! j = Some c2 →
              ctx_id c1 ≠ ctx_id c2).
Proof.
  intros Hij. destruct catalog_ids_distinct as [Hthemes Hgames]. split.
  - intros t1 t2 H1 H2 Heq. apply Hij.
    apply (NoDup_lookup _ i j (theme_id t1) Hthemes);
      rewrite list_lookup_fmap; [by rewrite H1 | by rewrite H2, Heq].
  - intros c1 c2 H1 H2 Heq. apply Hij.
    apply (NoDup_lookup _ i j (ctx_id c1) Hgames);
      rewrite list_lookup_fmap; [by rewrite H1 | by rewrite H2, Heq].
Qed.

(** C10. Every theme label in the [themes] field of a game-context
    record is the id of some record of [RELATIONSHIP_THEMES]. *)
Theorem game_themes_reference_catalog :
  ∀ ctx label,
    ctx ∈ game_contexts → label ∈ themes ctx →
    ∃ t, t ∈ RELATIONSHIP_THEMES ∧ theme_id t = label.
Proof.
  assert (Forall (λ ctx, Forall (λ label, label ∈ theme_id <$> RELATIONSHIP_THEMES)
                           (themes ctx)) game_contexts) as Hall.
  { apply (bool_decide_unpack _). vm_compute. exact I. }
  intros ctx label Hctx Hlabel.
  rewrite Forall_forall in Hall. specialize (Hall ctx Hctx).
  rewrite Forall_forall in Hall. specialize (Hall label Hlabel).
  apply list_elem_of_fmap in Hall as (t & -> & Ht). by exists t.
Qed.

(** ** Reasoning about runs *)

Section Runs.

Context {vector distance : Type} {env : Collaborators vector distance}.

Implicit Types (w : world vector) (h : handle) (s : store vector).

Lemma wp_run {A} (m : M A) w P o w' : m w = (o, w') → wp m w P → P o w'.
Proof. unfold wp. by intros ->. Qed.

Lemma wp_mono {A} (m : M A) w (P Q : outcome A → world vector → Prop) :
  wp m w P → (∀ o w', P o w' → Q o w') → wp m w Q.
Proof. unfold wp. auto. Qed.

Lemma wp_ret {A} (a : A) w P : P (Ok a) w → wp (ret a) w P.
Proof. done. Qed.

Lemma wp_raise {A} (e : exn) w (P : outcome A → world vector → Prop) :
  P (Raise e) w → wp (raise e) w P.
Proof. done. Qed.

Lemma wp_bind {A B} (m : M A) (k : A → M B) w P :
  wp m w (λ o w', match o with
                  | Ok a => wp (k a) w' P
                  | Raise e => P (Raise e) w'
                  end) →
  wp (bind m k) w P.
Proof. unfold wp, bind. by destruct (m w) as [[a|e] w']. Qed.

Lemma wp_try_except {A} (m : M A) (handler : exn → M A) w P :
  wp m w (λ o w', match o with
                  | Ok a => P (Ok a) w'
                  | Raise e => wp (handler e) w' P
                  end) →
  wp (try_except m handler) w P.
Proof. unfold wp, try_except. by destruct (m w) as [[a|e] w']. Qed.

Lemma wp_logger lvl msg w P :
  P (Ok ()) (World (w_store w) (w_trace w) (w_log w ++ [(lvl, msg)])) →
  wp (logger lvl msg) w P.
Proof. done. Qed.

(** An external call is recorded; then it fails on a fault, or the
    store answers. *)
Lemma wp_external {A} ev (answer : store vector → outcome (A * store vector)) w P :
  let tr := w_trace w ++ [ev] in
  (∀ e, fault tr = Some e → P (Raise e) (World (w_store w) tr (w_log w))) →
  (fault tr = None →
   match answer (w_store w) with
   | Ok (a, s') => P (Ok a) (World s' tr (w_log w))
   | Raise e => P (Raise e) (World (w_store w) tr (w_log w))
   end) →
  wp (external ev answer) w P.
Proof.
  intros tr Hfault Hanswer. unfold wp, external. fold tr.
  destruct (fault tr) as [e|]; [by apply Hfault |].
  specialize (Hanswer eq_refl).
  by destruct (answer (w_store w)) as [[a s']|e].
Qed.

(** A loop keeps what every round keeps, however it ends. *)
Lemma wp_for_each {A} (I : world vector → Prop) (xs : list A) (body : A → M ()) w :
  I w →
  (∀ x w1, x ∈ xs → I w1 → wp (body x) w1 (λ _ w2, I w2)) →
  wp (for_each xs body) w (λ _ w', I w').
Proof.
  revert w. induction xs as [|x xs IH]; intros w Hw Hbody; simpl.
  - by apply wp_ret.
  - apply wp_bind. eapply wp_mono; [apply Hbody; [left | done] |].
    intros [[]|e] w1 Hw1; [|done].
    apply IH; [done |]. intros y w2 Hy. apply Hbody. by right.
Qed.

(** Evaluation of a sequence whose first part is known. *)
Lemma bind_Ok {A B} (m : M A) (k : A → M B) w a w' :
  m w = (Ok a, w') → bind m k w = k a w'.
Proof. unfold bind. by intros ->. Qed.

Lemma bind_Raise {A B} (m : M A) (k : A → M B) w e w' :
  m w = (Raise e, w') → bind m k w = (Raise e, w').
Proof. unfold bind. by intros ->. Qed.

Lemma external_Ok {A} ev (answer : store vector → outcome (A * store vector)) w a s' :
  fault (w_trace w ++ [ev]) = None →
  answer (w_store w) = Ok (a, s') →
  external ev answer w = (Ok a, World s' (w_trace w ++ [ev]) (w_log w)).
Proof. unfold external. by intros -> ->. Qed.

Lemma external_Raise {A} ev (answer : store vector → outcome (A * store vector)) w e :
  fault (w_trace w ++ [ev]) = None →
  answer (w_store w) = Raise e →
  external ev answer w = (Raise e, World (w_store w) (w_trace w ++ [ev]) (w_log w)).
Proof. unfold external. by intros -> ->. Qed.

End Runs.

(** One step of symbolic execution. *)
Ltac wp_step :=
  lazy beta iota;
  lazymatch goal with
  | |- wp (bind _ _) _ _ => apply wp_bind
  | |- wp (try_except _ _) _ _ => apply wp_try_except
  | |- wp (logger _ _) _ _ => apply wp_logger
  | |- wp (ret _) _ _ => apply wp_ret
  | |- wp (raise _) _ _ => apply wp_raise
  end.

Ltac wp_call := lazy beta iota; apply wp_external; simpl.

(** ** The populate functions *)

Section Populate.

Context {vector distance : Type} {env : Collaborators vector distance}.

Implicit Types (w : world vector) (h : handle) (s : store vector).

(** The loop of lines 284-295 builds the three projections of the
    catalog, in catalog order. *)
Lemma prepare_themes_maps (catalog : list theme_record) :
  prepare_themes catalog
  = (text_content <$> catalog, theme_metadata <$> catalog, theme_id <$> catalog).
Proof.
  unfold prepare_themes.
  enough (∀ ds ms is_,
    foldl (λ '(documents, metadatas, ids) theme_data,
             (documents ++ [text_content theme_data],
              metadatas ++ [theme_metadata theme_data],
              ids ++ [theme_id theme_data]))
          (ds, ms, is_) catalog
    = (ds ++ (text_content <$> catalog), ms ++ (theme_metadata <$> catalog),
       is_ ++ (theme_id <$> catalog))) as Hgen by apply (Hgen [] [] []).
  induction catalog as [|t catalog IH]; intros ds ms is_; simpl.
  - by rewrite !app_nil_r.
  - rewrite IH. by rewrite <- !app_assoc.
Qed.

Lemma embed_and_add_run h documents metadatas ids (msg : string) w0 w :
  w_trace w = w_trace w0 → w_store w = w_store w0 →
  wp (bind (generate_embeddings documents default_model_name) (λ embeddings,
      bind (collection_add h documents metadatas ids embeddings) (λ _,
      bind (logger INFO msg) (λ _, ret VNone)))) w
     (populate_post h documents metadatas ids msg w0).
Proof.
  intros Htr Hst. unfold populate_post, populate_calls, generate_embeddings.
  wp_step. wp_step. unfold SentenceTransformer. wp_call; rewrite Htr.
  { intros e _. exists [EvSentenceTransformer default_model_name].
    split; [done |]. split; [by eexists | done]. }
  intros _. wp_step. unfold model_encode. wp_call.
  { intros e _. eexists [_; _]. rewrite <- app_assoc.
    split; [done |]. split; [by eexists | done]. }
  intros _. wp_step. wp_step. wp_step. wp_step. unfold collection_add. wp_call.
  { intros e _. eexists [_; _; _]. rewrite <- !app_assoc.
    split; [done |]. split; [by eexists [] | done]. }
  intros _.
  assert (∃ evs : list (event vector),
    ((w_trace w0 ++ [EvSentenceTransformer default_model_name])
       ++ [EvEncode default_model_name documents])
       ++ [EvAdd h documents metadatas ids (encode default_model_name documents)]
    = w_trace w0 ++ evs
    ∧ evs `prefix_of`
        [EvSentenceTransformer default_model_name;
         EvEncode default_model_name documents;
         EvAdd h documents metadatas ids (encode default_model_name documents)])
    as (evs3 & Hevs3 & Hpre3).
  { eexists [_; _; _]. rewrite <- !app_assoc. split; [done | by eexists []]. }
  repeat case_match; simplify_eq;
    try (exists evs3; split; [done |]; split; [done |]; done).
  wp_step. wp_step. wp_step. simpl.
  eexists [_; _; _]. rewrite <- !app_assoc.
  split; [done |]. split; [by eexists [] |].
  split; [done |]. split; [done |]. split; [by rewrite app_assoc, last_snoc |].
  split.
  { match goal with
    | Hlen : negb (bool_decide _) = false |- length _ = _ =>
        apply negb_false_iff, bool_decide_eq_true_1 in Hlen; by destruct Hlen as (_ & _ & ?)
    end. }
  rewrite <- Hst. by eexists.
Qed.

Lemma populate_relationship_themes_from_run catalog h w :
  wp (populate_relationship_themes_from catalog h) w
     (populate_post h (text_content <$> catalog) (theme_metadata <$> catalog)
        (theme_id <$> catalog)
        ("Added " ++ str_of_nat (length catalog)
           ++ " relationship themes to collection")%string w).
Proof.
  unfold populate_relationship_themes_from. rewrite prepare_themes_maps.
  rewrite length_fmap. wp_step. wp_step. by apply embed_and_add_run.
Qed.

Lemma populate_game_contexts_from_run contexts h w :
  wp (populate_game_contexts_from contexts h) w
     (populate_post h (ctx_context <$> contexts) (game_metadata <$> contexts)
        (ctx_id <$> contexts)
        ("Added " ++ str_of_nat (length contexts)
           ++ " game contexts to collection")%string w).
Proof.
  unfold populate_game_contexts_from. rewrite length_fmap.
  wp_step. wp_step. by apply embed_and_add_run.
Qed.

(** With reliable collaborators, one vector per text, a live handle
    and a non-empty batch of distinct ids, the same sequence returns. *)
Lemma embed_and_add_returns h documents metadatas ids (msg : string) w :
  reliable → batch_exact →
  length documents = length ids → length metadatas = length ids →
  ids ≠ [] → NoDup ids → live h (w_store w) →
  wp (bind (generate_embeddings documents default_model_name) (λ embeddings,
      bind (collection_add h documents metadatas ids embeddings) (λ _,
      bind (logger INFO msg) (λ _, ret VNone)))) w
     (λ o _, is_Ok o).
Proof.
  intros Hrel Hbatch Hdocs Hmetas Hne Hnodup [c Hc]. unfold generate_embeddings.
  wp_step. wp_step. unfold SentenceTransformer. wp_call.
  { intros e. by rewrite Hrel. }
  intros _. wp_step. unfold model_encode. wp_call.
  { intros e. by rewrite Hrel. }
  intros _. wp_step. wp_step. wp_step. wp_step. unfold collection_add. wp_call.
  { intros e. by rewrite Hrel. }
  intros _. rewrite Hbatch, Hc.
  rewrite (bool_decide_eq_true_2 _ (conj Hdocs (conj Hmetas Hdocs))).
  rewrite (bool_decide_eq_false_2 _ Hne).
  rewrite (bool_decide_eq_true_2 _ Hnodup). simpl.
  wp_step. wp_step. wp_step. done.
Qed.

Lemma populate_relationship_themes_from_returns catalog h w :
  reliable → batch_exact →
  catalog ≠ [] → NoDup (theme_id <$> catalog) → live h (w_store w) →
  wp (populate_relationship_themes_from catalog h) w (λ o _, is_Ok o).
Proof.
  intros Hrel Hbatch Hne Hnodup Hlive.
  unfold populate_relationship_themes_from. rewrite prepare_themes_maps.
  wp_step. wp_step. apply embed_and_add_returns;
    rewrite ?length_fmap; try done.
  by destruct catalog.
Qed.

Lemma populate_game_contexts_from_returns contexts h w :
  reliable → batch_exact →
  contexts ≠ [] → NoDup (ctx_id <$> contexts) → live h (w_store w) →
  wp (populate_game_contexts_from contexts h) w (λ o _, is_Ok o).
Proof.
  intros Hrel Hbatch Hne Hnodup Hlive. unfold populate_game_contexts_from.
  wp_step. wp_step. apply embed_and_add_returns;
    rewrite ?length_fmap; try done.
  by destruct contexts.
Qed.

(** *** What [add] does to the ids of a collection *)

Lemma add_entry_dom (entries : gmap string (entry vector)) r :
  dom (add_entry entries r) = {[ r.1 ]} ∪ dom entries.
Proof.
  unfold add_entry. destruct (entries !! r.1); by rewrite dom_insert_L.
Qed.

Lemma foldl_add_entry_dom (rs : list (string * entry vector)) entries :
  dom (foldl add_entry entries rs) = list_to_set rs.*1 ∪ dom entries.
Proof.
  revert entries. induction rs as [|r rs IH]; intros entries; simpl.
  - by rewrite (left_id_L ∅ (∪)).
  - rewrite IH, add_entry_dom.
    rewrite (assoc_L (∪)). f_equal. apply (comm_L (∪)).
Qed.

Lemma offered_ids documents metadatas ids (embeddings : list vector) :
  length documents = length ids → length metadatas = length ids →
  length embeddings = length ids →
  (offered documents metadatas ids embeddings).*1 = ids.
Proof.
  intros Hd Hm He. unfold offered. apply fst_zip.
  rewrite length_zip_with, length_zip. lia.
Qed.

Lemma offered_lookup documents metadatas ids (embeddings : list vector) k i d m v :
  ids !! k = Some i → documents !! k = Some d →
  metadatas !! k = Some m → embeddings !! k = Some v →
  offered documents metadatas ids embeddings !! k = Some (i, Entry d m v).
Proof.
  intros Hi Hd Hm Hv. unfold offered.
  rewrite !lookup_zip_with, Hi, Hd, Hm, Hv. done.
Qed.

Lemma foldl_add_entry_other (rs : list (string * entry vector)) entries i :
  i ∉ rs.*1 → foldl add_entry entries rs !! i = entries !! i.
Proof.
  revert entries. induction rs as [|r rs IH]; intros entries Hi; [done |].
  simpl in *. apply not_elem_of_cons in Hi as [Hne Hi].
  rewrite IH; [| done]. unfold add_entry.
  destruct (entries !! r.1); by rewrite lookup_insert_ne.
Qed.

(** A record offered under an id that is new to the collection, in a
    batch of distinct ids, is stored as offered. *)
Lemma foldl_add_entry_fresh (rs : list (string * entry vector)) entries k i e :
  NoDup rs.*1 → rs !! k = Some (i, e) → entries !! i = None →
  foldl add_entry entries rs !! i = Some e.
Proof.
  revert entries k. induction rs as [|r rs IH]; intros entries k Hnodup Hk Hnone;
    [done |].
  simpl in Hnodup. apply NoDup_cons in Hnodup as [Hr Hnodup]. simpl.
  destruct k as [|k]; simpl in Hk.
  - injection Hk as ->. rewrite foldl_add_entry_other; [| done].
    unfold add_entry. simpl. by rewrite Hnone, lookup_insert_eq.
  - assert (r.1 ≠ i) as Hne.
    { intros <-. apply Hr. apply list_elem_of_fmap.
      exists (r.1, e). split; [done |]. by eapply list_elem_of_lookup_2. }
    apply (IH _ k); [done | done |].
    unfold add_entry. destruct (entries !! r.1); by rewrite lookup_insert_ne.
Qed.

(** The ids after an [add]: those offered and those already there. *)
Lemma entries_after_add_dom (c : collection vector) documents metadatas ids :
  length documents = length ids → length metadatas = length ids →
  length (encode default_model_name documents) = length ids →
  dom (entries_after_add c documents metadatas ids)
  = list_to_set ids ∪ dom (c_entries c).
Proof.
  intros Hd Hm He. unfold entries_after_add.
  by rewrite foldl_add_entry_dom, offered_ids.
Qed.

Lemma entries_of_resolve h s c :
  resolve h s = Some c → entries_of (h_name h) s = c_entries c.
Proof.
  unfold resolve, entries_of. destruct (collections s !! h_name h) as [c'|]; [|done].
  case_decide; [|done]. by intros [= ->].
Qed.

Lemma entries_of_insert name (c : collection vector) colls n :
  entries_of name (Store (<[name := c]> colls) n) = c_entries c.
Proof. unfold entries_of. simpl. by rewrite lookup_insert_eq. Qed.

Lemma entries_of_insert_ne name name' (c : collection vector) colls n :
  name ≠ name' →
  entries_of name' (Store (<[name := c]> colls) n) = entries_of name' (Store colls n).
Proof. intros Hne. unfold entries_of. simpl. by rewrite lookup_insert_ne. Qed.

(** A populate run never removes an id from the collection it is
    given, and adds none that is not among those it handles. *)
Lemma populate_post_dom h documents metadatas ids msg w o w' c :
  length documents = length ids → length metadatas = length ids →
  resolve h (w_store w) = Some c →
  populate_post h documents metadatas ids msg w o w' →
  dom (entries_of (h_name h) (w_store w'))
  = match o with
    | Ok _ => list_to_set ids
    | Raise _ => ∅
    end ∪ dom (c_entries c).
Proof.
  intros Hd Hm Hc (evs & _ & _ & Ho). destruct o as [v|e].
  - destruct Ho as (_ & _ & _ & He & c' & Hc' & ->). simplify_eq.
    rewrite entries_of_insert. simpl. by apply entries_after_add_dom.
  - rewrite Ho, (left_id_L ∅ (∪)). by rewrite (entries_of_resolve _ _ c).
Qed.

(** A populate run on a collection that holds all the ids it handles
    leaves the number of records as it was, whether it returns or
    raises. *)
Lemma populate_post_count h documents metadatas ids msg w o w' c :
  length documents = length ids → length metadatas = length ids →
  resolve h (w_store w) = Some c → holds_ids c ids →
  populate_post h documents metadatas ids msg w o w' →
  count_of (h_name h) (w_store w') = count_of (h_name h) (w_store w).
Proof.
  intros Hd Hm Hc Hheld Hpost. unfold count_of.
  rewrite <- !size_dom.
  rewrite (populate_post_dom _ _ _ _ _ _ _ _ _ Hd Hm Hc Hpost).
  rewrite (entries_of_resolve _ _ _ Hc). f_equal.
  destruct o; [| by rewrite (left_id_L ∅ (∪))].
  apply (anti_symm (⊆)); [| apply union_subseteq_r].
  apply union_least; [| done].
  intros i Hi. apply elem_of_list_to_set in Hi.
  apply elem_of_dom. unfold holds_ids in Hheld.
  rewrite Forall_forall in Hheld. by apply Hheld.
Qed.

(** C7. The document of every record of [RELATIONSHIP_THEMES] is its
    label, its description and its example phrases joined by single
    spaces. A run of [populate_relationship_themes] makes at most three
    external calls, in this order: it loads the model, it encodes the
    list of all these documents in one call, and it adds the documents
    under the catalog's ids. A run that returns has made all three, so
    exactly one call of the encoder. The same holds for
    [populate_game_contexts] and its documents. With reliable
    collaborators that return one vector per text and a handle to a
    collection of the store, both functions do return after exactly these
    three calls, and every theme record whose id was free is then stored
    under its id with the joined text as its document. *)
Theorem documents_joined_and_encoded_in_one_batch (h : handle) (w : world vector) :
  Forall (λ t, text_content t = joined_by_spaces t) RELATIONSHIP_THEMES
  ∧ (let run := populate_relationship_themes h w in
     let calls := populate_calls h (joined_by_spaces <$> RELATIONSHIP_THEMES)
                    (theme_metadata <$> RELATIONSHIP_THEMES)
                    (theme_id <$> RELATIONSHIP_THEMES) in
     ∃ evs, w_trace run.2 = w_trace w ++ evs
            ∧ evs `prefix_of` calls
            ∧ match run.1 with
              | Ok _ => evs = calls
              | Raise _ => True
              end)
  ∧ (let run := populate_game_contexts h w in
     let calls := populate_calls h (ctx_context <$> game_contexts)
                    (game_metadata <$> game_contexts)
                    (ctx_id <$> game_contexts) in
     ∃ evs, w_trace run.2 = w_trace w ++ evs
            ∧ evs `prefix_of` calls
            ∧ match run.1 with
              | Ok _ => evs = calls
              | Raise _ => True
              end)
  ∧ (reliable → batch_exact → live h (w_store w) →
     (let run := populate_relationship_themes h w in
      run.1 = Ok VNone
      ∧ w_trace run.2
        = w_trace w
          ++ [ EvSentenceTransformer default_model_name;
               EvEncode default_model_name (joined_by_spaces <$> RELATIONSHIP_THEMES);
               EvAdd h (joined_by_spaces <$> RELATIONSHIP_THEMES)
                 (theme_metadata <$> RELATIONSHIP_THEMES)
                 (theme_id <$> RELATIONSHIP_THEMES)
                 (encode default_model_name
                    (joined_by_spaces <$> RELATIONSHIP_THEMES)) ]
      ∧ Forall (λ t, entries_of (h_name h) (w_store w) !! theme_id t = None →
                     ∃ v, entries_of (h_name h) (w_store run.2) !! theme_id t
                          = Some (Entry (joined_by_spaces t) (theme_metadata t) v))
               RELATIONSHIP_THEMES)
     ∧ (let run := populate_game_contexts h w in
        run.1 = Ok VNone
        ∧ w_trace run.2
          = w_trace w
            ++ [ EvSentenceTransformer default_model_name;
                 EvEncode default_model_name (ctx_context <$> game_contexts);
                 EvAdd h (ctx_context <$> game_contexts)
                   (game_metadata <$> game_contexts)
                   (ctx_id <$> game_contexts)
                   (encode default_model_name (ctx_context <$> game_contexts)) ])).
Proof.
  assert (Forall (λ t, text_content t = joined_by_spaces t) RELATIONSHIP_THEMES)
    as Hdocs.
  { apply Forall_forall. intros t Ht. apply text_content_joined.
    revert t Ht. apply Forall_forall.
    apply (bool_decide_unpack _). vm_compute. exact I. }
  assert (joined_by_spaces <$> RELATIONSHIP_THEMES
          = text_content <$> RELATIONSHIP_THEMES) as Hjoined.
  { apply Forall_fmap_ext_1. by eapply Forall_impl. }
  split; [done |]. rewrite Hjoined. split; [| split].
  - destruct (populate_relationship_themes_from_run RELATIONSHIP_THEMES h w)
      as (evs & Htr & Hpre & Ho).
    exists evs. split; [done |]. split; [done |].
    unfold populate_relationship_themes.
    destruct (populate_relationship_themes_from RELATIONSHIP_THEMES h w).1; [|done].
    by destruct Ho.
  - destruct (populate_game_contexts_from_run game_contexts h w)
      as (evs & Htr & Hpre & Ho).
    exists evs. split; [done |]. split; [done |].
    unfold populate_game_contexts.
    destruct (populate_game_contexts_from game_contexts h w).1; [|done].
    by destruct Ho.
  - intros Hrel Hbatch Hlive.
    destruct catalog_ids_distinct as [Hthemes Hgames].
    destruct catalogs_not_empty as [Hne_themes Hne_games]. split.
    + unfold populate_relationship_themes.
      destruct (populate_relationship_themes_from RELATIONSHIP_THEMES h w)
        as [o w'] eqn:Hrun.
      pose proof (wp_run _ _ _ _ _ Hrun
                    (populate_relationship_themes_from_run RELATIONSHIP_THEMES h w))
        as Hpost.
      pose proof (wp_run _ _ _ _ _ Hrun
                    (populate_relationship_themes_from_returns RELATIONSHIP_THEMES h w
                       Hrel Hbatch Hne_themes Hthemes Hlive)) as Hok.
      destruct o as [v|e]; [| done].
      destruct Hpost as (evs & Htr & _ & -> & -> & _ & Hlen3 & c & Hc & Hstore).
      cbn [fst snd]. split; [done |]. split; [done |].
      apply Forall_lookup. intros k t Hk Hfree.
      assert (is_Some (encode default_model_name
                         (text_content <$> RELATIONSHIP_THEMES) !! k)) as [v Hv].
      { apply lookup_lt_is_Some. rewrite Hlen3, length_fmap.
        by eapply lookup_lt_Some. }
      exists v. rewrite Hstore, entries_of_insert. cbn [c_entries].
      rewrite Forall_lookup in Hdocs. rewrite <- (Hdocs k t Hk).
      unfold entries_after_add. eapply (foldl_add_entry_fresh _ _ k).
      * rewrite offered_ids; [done | | | done]; by rewrite !length_fmap.
      * apply offered_lookup; [| | | done]; by rewrite list_lookup_fmap, Hk.
      * by rewrite <- (entries_of_resolve _ _ _ Hc).
    + unfold populate_game_contexts.
      destruct (populate_game_contexts_from game_contexts h w) as [o w'] eqn:Hrun.
      pose proof (wp_run _ _ _ _ _ Hrun
                    (populate_game_contexts_from_run game_contexts h w)) as Hpost.
      pose proof (wp_run _ _ _ _ _ Hrun
                    (populate_game_contexts_from_returns game_contexts h w
                       Hrel Hbatch Hne_games Hgames Hlive)) as Hok.
      destruct o as [v|e]; [| done].
      by destruct Hpost as (evs & Htr & _ & -> & -> & _).
Qed.

(** C2, as the code has it. A populate function returns [None], for any
    catalog; the number of records it handled appears in its last log
    line only, and the [add] call it ends with carries one id per
    record of the catalog. *)
Theorem populate_returns_none_and_logs_count
    (catalog : list theme_record) (contexts : list game_context)
    (h : handle) (w : world vector) :
  (∀ v w', populate_relationship_themes_from catalog h w = (Ok v, w') →
     v = VNone
     ∧ last (w_log w')
       = Some (INFO, ("Added " ++ str_of_nat (length catalog)
                        ++ " relationship themes to collection")%string)
     ∧ ∃ documents metadatas ids embeddings,
         last (w_trace w') = Some (EvAdd h documents metadatas ids embeddings)
         ∧ length ids = length catalog)
  ∧ (∀ v w', populate_game_contexts_from contexts h w = (Ok v, w') →
     v = VNone
     ∧ last (w_log w')
       = Some (INFO, ("Added " ++ str_of_nat (length contexts)
                        ++ " game contexts to collection")%string)
     ∧ ∃ documents metadatas ids embeddings,
         last (w_trace w') = Some (EvAdd h documents metadatas ids embeddings)
         ∧ length ids = length contexts).
Proof.
  split; intros v w' Hrun.
  - pose proof (populate_relationship_themes_from_run catalog h w) as Hpost.
    apply (wp_run _ _ _ _ _ Hrun) in Hpost
      as (evs & Htr & _ & -> & -> & Hlog & _).
    split; [done |]. split; [done |].
    eexists _, _, _, _. rewrite Htr. unfold populate_calls.
    rewrite (last_app_cons (w_trace w)). simpl. split; [done |].
    by rewrite length_fmap.
  - pose proof (populate_game_contexts_from_run contexts h w) as Hpost.
    apply (wp_run _ _ _ _ _ Hrun) in Hpost
      as (evs & Htr & _ & -> & -> & Hlog & _).
    split; [done |]. split; [done |].
    eexists _, _, _, _. rewrite Htr. unfold populate_calls.
    rewrite (last_app_cons (w_trace w)). simpl. split; [done |].
    by rewrite length_fmap.
Qed.

(** C1. When the collection already holds a record under every id of
    the catalog, a run of [populate_relationship_themes] (and likewise
    of [populate_game_contexts]) leaves the number of records as it was,
    and with reliable collaborators that return one vector per text the
    run returns. This holds whatever [add] keeps for an id it already
    has, the stored entry or the offered one. *)
Theorem repopulate_keeps_count (h : handle) (w : world vector) (c : collection vector) :
  resolve h (w_store w) = Some c →
  (holds_ids c (theme_id <$> RELATIONSHIP_THEMES) →
   let run := populate_relationship_themes h w in
   count_of (h_name h) (w_store run.2) = count_of (h_name h) (w_store w)
   ∧ (reliable → batch_exact → run.1 = Ok VNone))
  ∧ (holds_ids c (ctx_id <$> game_contexts) →
     let run := populate_game_contexts h w in
     count_of (h_name h) (w_store run.2) = count_of (h_name h) (w_store w)
     ∧ (reliable → batch_exact → run.1 = Ok VNone)).
Proof.
  intros Hc. destruct catalog_ids_distinct as [Hthemes Hgames].
  destruct catalogs_not_empty as [Hne_themes Hne_games].
  split; intros Hheld; simpl.
  - pose proof (populate_relationship_themes_from_run RELATIONSHIP_THEMES h w) as Hpost.
    split.
    + eapply populate_post_count; [| | exact Hc | exact Hheld | exact Hpost];
        by rewrite !length_fmap.
    + intros Hrel Hbatch.
      pose proof (populate_relationship_themes_from_returns RELATIONSHIP_THEMES h w
                    Hrel Hbatch Hne_themes Hthemes (ex_intro _ c Hc)) as Hok.
      unfold wp, populate_relationship_themes in *.
      destruct (populate_relationship_themes_from RELATIONSHIP_THEMES h w).1; [|done].
      by destruct Hpost as (? & _ & _ & _ & -> & _).
  - pose proof (populate_game_contexts_from_run game_contexts h w) as Hpost.
    split.
    + eapply populate_post_count; [| | exact Hc | exact Hheld | exact Hpost];
        by rewrite !length_fmap.
    + intros Hrel Hbatch.
      pose proof (populate_game_contexts_from_returns game_contexts h w
                    Hrel Hbatch Hne_games Hgames (ex_intro _ c Hc)) as Hok.
      unfold wp, populate_game_contexts in *.
      destruct (populate_game_contexts_from game_contexts h w).1; [|done].
      by destruct Hpost as (? & _ & _ & _ & -> & _).
Qed.

(** C5. [RELATIONSHIP_THEMES] has 15 records. With reliable
    collaborators that return one vector per text, a run of
    [populate_relationship_themes] on an empty collection returns, and
    afterwards the ids of the collection are exactly the ids of the
    catalog, its count is 15, and every record of the catalog is stored
    under its id with its document and its metadata. *)
Theorem themes_into_empty_collection (h : handle) (w : world vector)
    (c : collection vector) :
  reliable → batch_exact →
  resolve h (w_store w) = Some c → c_entries c = ∅ →
  length RELATIONSHIP_THEMES = 15
  ∧ ∃ w', populate_relationship_themes h w = (Ok VNone, w')
          ∧ dom (entries_of (h_name h) (w_store w'))
            = list_to_set (theme_id <$> RELATIONSHIP_THEMES)
          ∧ count_of (h_name h) (w_store w') = 15
          ∧ Forall (λ t, ∃ v, entries_of (h_name h) (w_store w') !! theme_id t
                              = Some (Entry (text_content t) (theme_metadata t) v))
                   RELATIONSHIP_THEMES.
Proof.
  intros Hrel Hbatch Hc Hempty. split; [done |].
  destruct catalog_ids_distinct as [Hthemes _].
  destruct catalogs_not_empty as [Hne _].
  unfold populate_relationship_themes.
  destruct (populate_relationship_themes_from RELATIONSHIP_THEMES h w)
    as [o w'] eqn:Hrun.
  pose proof (wp_run _ _ _ _ _ Hrun
                (populate_relationship_themes_from_run RELATIONSHIP_THEMES h w))
    as Hpost.
  pose proof (wp_run _ _ _ _ _ Hrun
                (populate_relationship_themes_from_returns RELATIONSHIP_THEMES h w
                   Hrel Hbatch Hne Hthemes (ex_intro _ c Hc))) as Hok.
  destruct o as [v|e]; [|done].
  assert (length (text_content <$> RELATIONSHIP_THEMES)
          = length (theme_id <$> RELATIONSHIP_THEMES)) as Hlen1
    by by rewrite !length_fmap.
  assert (length (theme_metadata <$> RELATIONSHIP_THEMES)
          = length (theme_id <$> RELATIONSHIP_THEMES)) as Hlen2
    by by rewrite !length_fmap.
  pose proof (populate_post_dom _ _ _ _ _ _ _ _ _ Hlen1 Hlen2 Hc Hpost) as Hdom.
  rewrite Hempty, dom_empty_L, (right_id_L ∅ (∪)) in Hdom.
  destruct Hpost as (evs & _ & _ & _ & -> & _ & Hlen3 & c' & Hc' & Hstore).
  simplify_eq. exists w'. split; [done |]. split; [done |]. split.
  { unfold count_of. rewrite <- size_dom, Hdom.
    rewrite size_list_to_set; [| done]. by rewrite length_fmap. }
  apply Forall_lookup. intros k t Hk.
  assert (is_Some (encode default_model_name (text_content <$> RELATIONSHIP_THEMES) !! k))
    as [v Hv].
  { apply lookup_lt_is_Some. rewrite Hlen3, length_fmap.
    by eapply lookup_lt_Some. }
  exists v. rewrite Hstore, entries_of_insert. cbn [c_entries]. unfold entries_after_add.
  eapply (foldl_add_entry_fresh _ _ k).
  - rewrite offered_ids; done.
  - apply offered_lookup; [| | | done]; by rewrite list_lookup_fmap, Hk.
  - by rewrite Hempty.
Qed.

End Populate.

(** ** Collection creation *)

Lemma append_assoc (a b c : string) :
  ((a ++ b) ++ c)%string = (a ++ b ++ c)%string.
Proof.
  induction a as [|x a IH]; [done |].
  rewrite !append_String. by rewrite IH.
Qed.

(** The message of the store's already-exists failure passes the test
    of lines 228, 242 and 256. *)
Lemma already_exists_recognised (name : string) :
  py_in "already exists" ("Collection " ++ name ++ " already exists") = true.
Proof.
  apply py_in_spec. exists ("Collection " ++ name ++ " ")%string, EmptyString.
  rewrite append_assoc. f_equal. by rewrite append_assoc.
Qed.

Section Creation.

Context {vector distance : Type} {env : Collaborators vector distance}.

Implicit Types (w : world vector) (h : handle) (s : store vector) (d : pydict).

Lemma create_collection_fresh cl name md w :
  fault (w_trace w ++ [EvCreateCollection name md]) = None →
  collections (w_store w) !! name = None →
  create_collection cl name md w
  = (Ok (Handle name (next_uuid (w_store w))),
     World (Store (<[name := Collection (next_uuid (w_store w)) md ∅]>
                     (collections (w_store w)))
                  (N.succ (next_uuid (w_store w))))
           (w_trace w ++ [EvCreateCollection name md]) (w_log w)).
Proof.
  intros Hf Hnone. unfold create_collection.
  erewrite external_Ok; [done | done |]. by rewrite Hnone.
Qed.

Lemma create_collection_taken cl name md w c :
  fault (w_trace w ++ [EvCreateCollection name md]) = None →
  collections (w_store w) !! name = Some c →
  create_collection cl name md w
  = (Raise (Exn "UniqueConstraintError" ("Collection " ++ name ++ " already exists")),
     World (w_store w) (w_trace w ++ [EvCreateCollection name md]) (w_log w)).
Proof.
  intros Hf Hsome. unfold create_collection.
  erewrite external_Raise; [done | done |]. by rewrite Hsome.
Qed.

Lemma get_collection_found cl name w c :
  fault (w_trace w ++ [EvGetCollection name]) = None →
  collections (w_store w) !! name = Some c →
  get_collection cl name w
  = (Ok (Handle name (c_uuid c)),
     World (w_store w) (w_trace w ++ [EvGetCollection name]) (w_log w)).
Proof.
  intros Hf Hsome. unfold get_collection.
  erewrite external_Ok; [done | done |]. by rewrite Hsome.
Qed.

(** One create-or-get statement with reliable collaborators: it
    returns, the handle it files denotes the collection of that name,
    an existing collection is left as it is, and no other name is
    touched. *)
Lemma create_collections_step_reliable cl name description d w :
  reliable →
  ∃ c w',
    create_collections_step cl name description d w
    = (Ok (dict_set name (Handle name (c_uuid c)) d), w')
    ∧ collections (w_store w') !! name = Some c
    ∧ (∀ n, n ≠ name →
         collections (w_store w') !! n = collections (w_store w) !! n)
    ∧ (is_Some (collections (w_store w) !! name) → w_store w' = w_store w).
Proof.
  intros Hrel. unfold create_collections_step, try_except.
  destruct (collections (w_store w) !! name) as [c|] eqn:Hlookup.
  - erewrite bind_Raise; [| by eapply create_collection_taken].
    lazy beta iota delta [exn_str]. rewrite already_exists_recognised.
    erewrite bind_Ok; [| by eapply get_collection_found].
    exists c. eexists. split; [done |]. simpl. done.
  - erewrite bind_Ok; [| by eapply create_collection_fresh].
    lazy beta iota. eexists (Collection _ _ _), _. split; [done |]. simpl.
    split; [by rewrite lookup_insert_eq |].
    split; [intros n Hn; by rewrite lookup_insert_ne | by intros [? ?]].
Qed.

(** C3. With reliable collaborators: a create-or-get statement for a
    name that is taken does not raise, it files a handle to the
    collection that is there and leaves the store as it is; run twice in
    sequence for one name, the statement returns both times with the
    same handle, which denotes a collection of the store, and the second
    run changes nothing in the store; and two runs of
    [create_collections] in sequence return the same three handles. *)
Theorem collection_creation_idempotent (cl cl' : client) (name description : string)
    (d : pydict) (w : world vector) :
  reliable →
  (∀ c, collections (w_store w) !! name = Some c →
     ∃ w', create_collections_step cl name description d w
           = (Ok (dict_set name (Handle name (c_uuid c)) d), w')
           ∧ w_store w' = w_store w)
  ∧ (∃ h w1 w2,
       create_collections_step cl name description d w = (Ok (dict_set name h d), w1)
       ∧ create_collections_step cl' name description d w1
         = (Ok (dict_set name h d), w2)
       ∧ live h (w_store w1)
       ∧ w_store w2 = w_store w1)
  ∧ (∃ handles w1 w2,
       create_collections cl w = (Ok handles, w1)
       ∧ create_collections cl' w1 = (Ok handles, w2)
       ∧ w_store w2 = w_store w1).
Proof.
  intros Hrel. split; [| split].
  - intros c Hc.
    destruct (create_collections_step_reliable cl name description d w Hrel)
      as (c' & w' & Hrun & Hc' & _ & Hsame).
    specialize (Hsame (mk_is_Some _ _ Hc)). rewrite Hsame, Hc in Hc'.
    injection Hc' as <-. by exists w'.
  - destruct (create_collections_step_reliable cl name description d w Hrel)
      as (c & w1 & Hrun1 & Hc & _ & _).
    destruct (create_collections_step_reliable cl' name description d w1 Hrel)
      as (c' & w2 & Hrun2 & Hc' & _ & Hsame).
    specialize (Hsame (mk_is_Some _ _ Hc)). rewrite Hsame, Hc in Hc'.
    injection Hc' as <-.
    exists (Handle name (c_uuid c)), w1, w2. split; [done |]. split; [done |].
    split; [| done]. exists c. unfold resolve. simpl. rewrite Hc.
    by rewrite decide_True.
  - unfold create_collections.
    destruct (create_collections_step_reliable cl "relationship_themes"
                "Semantic themes for relationship conflicts and conversations"
                [] w Hrel) as (c1 & wa & Ha & Hc1 & _ & _).
    destruct (create_collections_step_reliable cl "translator_history"
                "Historical translator outputs for pattern learning"
                (dict_set "relationship_themes" (Handle "relationship_themes" (c_uuid c1)) [])
                wa Hrel) as (c2 & wb & Hb & Hc2 & Hb_other & _).
    destruct (create_collections_step_reliable cl "game_contexts"
                "Game recommendation contexts and patterns"
                (dict_set "translator_history" (Handle "translator_history" (c_uuid c2))
                   (dict_set "relationship_themes"
                      (Handle "relationship_themes" (c_uuid c1)) []))
                wb Hrel) as (c3 & w1 & Hc & Hc3 & Hc_other & _).
    assert (collections (w_store w1) !! "relationship_themes" = Some c1) as H1.
    { rewrite Hc_other, Hb_other; done. }
    assert (collections (w_store w1) !! "translator_history" = Some c2) as H2.
    { rewrite Hc_other; done. }
    destruct (create_collections_step_reliable cl' "relationship_themes"
                "Semantic themes for relationship conflicts and conversations"
                [] w1 Hrel) as (c1' & wa' & Ha' & Hc1' & _ & Hsame1).
    specialize (Hsame1 (mk_is_Some _ _ H1)).
    rewrite Hsame1, H1 in Hc1'. injection Hc1' as <-.
    destruct (create_collections_step_reliable cl' "translator_history"
                "Historical translator outputs for pattern learning"
                (dict_set "relationship_themes" (Handle "relationship_themes" (c_uuid c1)) [])
                wa' Hrel) as (c2' & wb' & Hb' & Hc2' & _ & Hsame2).
    rewrite Hsame1 in Hsame2. specialize (Hsame2 (mk_is_Some _ _ H2)).
    rewrite Hsame2, H2 in Hc2'. injection Hc2' as <-.
    destruct (create_collections_step_reliable cl' "game_contexts"
                "Game recommendation contexts and patterns"
                (dict_set "translator_history" (Handle "translator_history" (c_uuid c2))
                   (dict_set "relationship_themes"
                      (Handle "relationship_themes" (c_uuid c1)) []))
                wb' Hrel) as (c3' & w2 & Hc' & Hc3' & _ & Hsame3).
    rewrite Hsame2 in Hsame3. specialize (Hsame3 (mk_is_Some _ _ Hc3)).
    rewrite Hsame3, Hc3 in Hc3'. injection Hc3' as <-.
    eexists _, w1, w2.
    split.
    { erewrite bind_Ok; [| exact Ha]. erewrite bind_Ok; [| exact Hb].
      erewrite bind_Ok; [| exact Hc]. done. }
    split.
    { erewrite bind_Ok; [| exact Ha']. erewrite bind_Ok; [| exact Hb'].
      erewrite bind_Ok; [| exact Hc']. done. }
    done.
Qed.



End Creation.

(** ** The verifier *)

Section Verifier.

Context {vector distance : Type} {env : Collaborators vector distance}.

Implicit Types (w : world vector) (h : handle) (s : store vector) (d : pydict).

Lemma read_only_refl w : read_only w w.
Proof. split; [done |]. exists []. by rewrite app_nil_r. Qed.

Lemma read_only_log w0 w lvl msg :
  read_only w0 w →
  read_only w0 (World (w_store w) (w_trace w) (w_log w ++ [(lvl, msg)])).
Proof. done. Qed.

Lemma read_only_query w0 w h query_texts n log :
  read_only w0 w →
  read_only w0 (World (w_store w) (w_trace w ++ [EvQuery h query_texts n]) log).
Proof.
  intros [Hst (evs & Htr & Hq)]. split; [done |].
  exists (evs ++ [EvQuery h query_texts n]). simpl.
  rewrite Htr, app_assoc. split; [done |].
  apply Forall_app. split; [done |]. by apply Forall_singleton.
Qed.

Lemma collection_query_read_only w0 w h query_texts n :
  read_only w0 w →
  wp (collection_query h query_texts n) w (λ _ w', read_only w0 w').
Proof.
  intros Hro. unfold collection_query. wp_call.
  - intros e _. by apply read_only_query.
  - intros _. destruct (resolve h (w_store w)); by apply read_only_query.
Qed.

Lemma getitem0_read_only {A} w0 w (rows : list A) (k : A → M ()) :
  read_only w0 w →
  (∀ r, wp (k r) w (λ _ w', read_only w0 w')) →
  wp (bind (getitem0 rows) k) w (λ _ w', read_only w0 w').
Proof.
  intros Hro Hk. wp_step. destruct rows as [|r rows]; simpl.
  - by apply wp_raise.
  - apply wp_ret. apply Hk.
Qed.

(** The verifier makes query calls only and leaves the store alone. *)
Lemma test_similarity_search_read_only collections w :
  wp (test_similarity_search collections) w (λ _ w', read_only w w').
Proof.
  unfold test_similarity_search. wp_step. wp_step. wp_step.
  unfold dict_getitem. destruct (dict_lookup _ _) as [themes_collection|];
    [| apply wp_raise; apply read_only_log, read_only_refl].
  wp_step. wp_step.
  eapply wp_mono.
  { apply (wp_for_each (read_only w)); [apply read_only_log, read_only_refl |].
    intros query w1 _ Hw1. wp_step.
    eapply wp_mono; [by apply collection_query_read_only |].
    intros [results|e] w2 Hw2; [| done].
    wp_step. wp_step. simpl.
    apply getitem0_read_only; [by apply read_only_log |]. intros documents.
    apply getitem0_read_only; [by apply read_only_log |]. intros metadatas.
    apply getitem0_read_only; [by apply read_only_log |]. intros distances.
    wp_step. eapply wp_mono.
    { apply (wp_for_each (read_only w)); [by apply read_only_log |].
      intros [i [[doc metadata] dist]] w3 _ Hw3. wp_step.
      unfold metadata_getitem.
      destruct metadata as [md|]; [| by apply wp_raise].
      destruct (md !! "theme") as [v|]; [| by apply wp_raise].
      wp_step. wp_step. by apply read_only_log. }
    intros [[]|e] w3 Hw3; [| done]. wp_step. by apply read_only_log. }
  intros [[]|e] w1 Hw1; [| done]. by wp_step.
Qed.

(** C8. Whatever the store holds and whatever the dict of handles is,
    a run of [test_similarity_search], whether it returns or raises,
    leaves the store as it was, with every collection's ids, documents,
    metadata, embeddings and count, and every external call it makes is
    a query. *)
Theorem verifier_performs_no_writes (collections : pydict) (w : world vector) :
  let run := test_similarity_search collections w in
  w_store run.2 = w_store w
  ∧ (∀ name, entries_of name (w_store run.2) = entries_of name (w_store w)
             ∧ count_of name (w_store run.2) = count_of name (w_store w))
  ∧ ∃ evs, w_trace run.2 = w_trace w ++ evs ∧ Forall is_query evs.
Proof.
  destruct (test_similarity_search_read_only collections w) as [Hst Htr].
  simpl. split; [done |]. split; [| done].
  intros name. unfold count_of. by rewrite Hst.
Qed.

End Verifier.

(** ** The whole run *)

Section Main.

Context {vector distance : Type} {env : Collaborators vector distance}.

Implicit Types (w : world vector) (h : handle) (s : store vector) (d : pydict).

Lemma writes_only_refl names s : writes_only names s s.
Proof. done. Qed.

Lemma writes_only_trans names s1 s2 s3 :
  writes_only names s1 s2 → writes_only names s2 s3 → writes_only names s1 s3.
Proof.
  intros [He1 Hp1] [He2 Hp2]. split.
  - intros n Hn. by rewrite He2, He1.
  - intros n Hn. by apply Hp2, Hp1.
Qed.

Lemma writes_only_weaken names names' s s' :
  names ⊆ names' → writes_only names s s' → writes_only names' s s'.
Proof.
  intros Hsub [He Hp]. split; [| done].
  intros n Hn. apply He. intros Hin. by apply Hn, Hsub.
Qed.

Lemma writes_only_nothing names s s' :
  writes_only [] s s' → writes_only names s s'.
Proof.
  apply writes_only_weaken. intros n Hn. by apply not_elem_of_nil in Hn.
Qed.

(** A new, empty collection adds no records anywhere. *)
Lemma writes_only_created name u md s :
  collections s !! name = None →
  writes_only [] s (Store (<[name := Collection u md ∅]> (collections s))
                          (N.succ (next_uuid s))).
Proof.
  intros Hnone. split.
  - intros n _. unfold entries_of. simpl.
    destruct (decide (name = n)) as [<-|Hne].
    + by rewrite lookup_insert_eq, Hnone.
    + by rewrite lookup_insert_ne.
  - intros n Hn. simpl. destruct (decide (name = n)) as [<-|Hne].
    + by rewrite lookup_insert_eq.
    + by rewrite lookup_insert_ne.
Qed.

(** Replacing the collection of a handle writes to that name only. *)
Lemma writes_only_replaced h (c' : collection vector) s :
  writes_only [h_name h] s (Store (<[h_name h := c']> (collections s)) (next_uuid s)).
Proof.
  split.
  - intros n Hn. apply entries_of_insert_ne. intros Heq. apply Hn.
    rewrite Heq. by left.
  - intros n Hn. simpl. destruct (decide (h_name h = n)) as [<-|Hne].
    + by rewrite lookup_insert_eq.
    + by rewrite lookup_insert_ne.
Qed.

(** A populate run writes to the collection of its handle only. *)
Lemma populate_post_writes h documents metadatas ids msg w o w' :
  populate_post h documents metadatas ids msg w o w' →
  writes_only [h_name h] (w_store w) (w_store w').
Proof.
  intros (evs & _ & _ & Ho). destruct o as [v|e].
  - destruct Ho as (_ & _ & _ & _ & c & _ & ->). apply writes_only_replaced.
  - rewrite Ho. apply writes_only_refl.
Qed.

(** One create-or-get statement, whatever fails: no records are
    written; when it returns, the handle filed carries the name and the
    collection of that name is there. *)
Lemma create_collections_step_writes cl name description d w :
  wp (create_collections_step cl name description d) w
     (λ o w', writes_only [] (w_store w) (w_store w')
              ∧ match o with
                | Ok d' => ∃ h, d' = dict_set name h d ∧ h_name h = name
                                ∧ is_Some (collections (w_store w') !! name)
                | Raise _ => True
                end).
Proof.
  unfold create_collections_step. wp_step. wp_step.
  assert (∀ e (w1 : world vector),
    w_store w1 = w_store w →
    wp (if py_in "already exists" (exn_str e)
        then bind (get_collection cl name) (λ h,
               bind (logger INFO ("Using existing " ++ name ++ " collection")%string)
                 (λ _, ret (dict_set name h d)))
        else raise e) w1
       (λ o w', writes_only [] (w_store w) (w_store w')
                ∧ match o with
                  | Ok d' => ∃ h, d' = dict_set name h d ∧ h_name h = name
                                  ∧ is_Some (collections (w_store w') !! name)
                  | Raise _ => True
                  end)) as Hhandler.
  { intros e w1 Hst. destruct (py_in _ _); [| by apply wp_raise; rewrite Hst].
    wp_step. unfold get_collection. wp_call; rewrite Hst.
    - done.
    - intros _. destruct (collections (w_store w) !! name) as [c|] eqn:Hc; [| done].
      wp_step. wp_step. wp_step. simpl. split; [done |].
      eexists. split; [done |]. split; [done |]. by rewrite Hc. }
  unfold create_collection. wp_call.
  - intros e _. by apply Hhandler.
  - intros _. destruct (collections (w_store w) !! name) as [c|] eqn:Hc.
    + by apply Hhandler.
    + wp_step. wp_step. wp_step. simpl.
      split; [by apply writes_only_created |].
      eexists. split; [done |]. split; [done |]. by rewrite lookup_insert_eq.
Qed.

Lemma create_collections_writes cl w :
  wp (create_collections cl) w
     (λ o w', writes_only [] (w_store w) (w_store w')
              ∧ match o with
                | Ok d => ∃ h1 h2 h3,
                    d = [("relationship_themes", h1); ("translator_history", h2);
                         ("game_contexts", h3)]
                    ∧ h_name h1 = "relationship_themes"
                    ∧ h_name h3 = "game_contexts"
                    ∧ is_Some (collections (w_store w') !! "translator_history")
                | Raise _ => True
                end).
Proof.
  unfold create_collections. wp_step.
  eapply wp_mono; [apply create_collections_step_writes |].
  intros [d1|e] wa [Hwa Hd1]; [| done]. destruct Hd1 as (h1 & -> & Hh1 & _).
  wp_step. eapply wp_mono; [apply create_collections_step_writes |].
  intros [d2|e] wb [Hwb Hd2]; [| split; [by eapply writes_only_trans | done]].
  destruct Hd2 as (h2 & -> & Hh2 & Hth).
  wp_step. eapply wp_mono; [apply create_collections_step_writes |].
  intros [d3|e] wc [Hwc Hd3];
    [| split; [eapply writes_only_trans; [by eapply writes_only_trans | done] | done]].
  destruct Hd3 as (h3 & -> & Hh3 & _).
  wp_step. split; [eapply writes_only_trans; [by eapply writes_only_trans | done] |].
  exists h1, h2, h3. split; [done |]. split; [done |]. split; [done |].
  by apply Hwc.
Qed.

Lemma setup_chroma_client_store host port w :
  wp (setup_chroma_client host port) w (λ _ w', w_store w' = w_store w).
Proof.
  unfold setup_chroma_client. wp_step. wp_step. unfold HttpClient. wp_call.
  - intros e _. by wp_step; wp_step; wp_step.
  - intros _. by wp_step; wp_step; wp_step.
Qed.

Lemma report_counts_store (collections : pydict) w :
  wp (for_each collections (λ '(name, collection),
        bind (collection_count collection) (λ count,
          logger INFO ("Collection '" ++ name ++ "': " ++ str_of_nat count
                         ++ " documents")%string))) w
     (λ _ w', w_store w' = w_store w).
Proof.
  apply (wp_for_each (λ w', w_store w' = w_store w)); [done |].
  intros [name collection] w1 _ Hw1. wp_step. unfold collection_count. wp_call.
  - done.
  - intros _. destruct (resolve collection (w_store w1)); [| done]. by wp_step.
Qed.

Lemma dict_getitem_themes h1 h2 h3 :
  dict_getitem [("relationship_themes", h1); ("translator_history", h2);
                ("game_contexts", h3)] "relationship_themes"
  = ret (vector := vector) h1.
Proof. reflexivity. Qed.

Lemma dict_getitem_games h1 h2 h3 :
  dict_getitem [("relationship_themes", h1); ("translator_history", h2);
                ("game_contexts", h3)] "game_contexts"
  = ret (vector := vector) h3.
Proof. reflexivity. Qed.

(** What [main] does to the store, however it ends: it writes records
    to the collections named relationship_themes and game_contexts
    only, no collection disappears, and when it returns the collection
    translator_history is there. *)
Lemma main_writes environ w :
  wp (main environ) w
     (λ o w', writes_only ["relationship_themes"; "game_contexts"]
                (w_store w) (w_store w')
              ∧ (is_Ok o →
                 is_Some (collections (w_store w') !! "translator_history"))).
Proof.
  unfold main, int_of_str. wp_step.
  destruct (py_int _) as [port|]; [| by apply wp_raise].
  wp_step. wp_step. wp_step. wp_step.
  set (w0 := World (w_store w) (w_trace w) _).
  enough (wp
    (bind (setup_chroma_client (getenv environ "CHROMA_HOST" "localhost") port) (λ client,
     bind (create_collections client) (λ collections,
     bind (dict_getitem collections "relationship_themes") (λ themes_collection,
     bind (populate_relationship_themes themes_collection) (λ _,
     bind (dict_getitem collections "game_contexts") (λ games_collection,
     bind (populate_game_contexts games_collection) (λ _,
     bind (test_similarity_search collections) (λ _,
     bind (logger INFO "ChromaDB setup completed successfully!") (λ _,
     bind (for_each collections (λ '(name, collection),
             bind (collection_count collection) (λ count,
               logger INFO ("Collection '" ++ name ++ "': " ++ str_of_nat count
                              ++ " documents")%string))) (λ _,
     ret VNone)))))))))) w0
    (λ o w', writes_only ["relationship_themes"; "game_contexts"]
               (w_store w) (w_store w')
             ∧ (is_Ok o →
                is_Some (collections (w_store w') !! "translator_history"))))
    as Hbody.
  { eapply wp_mono; [exact Hbody |]. intros [v|e] w' [Hw' Hth]; [done |].
    wp_step. wp_step. wp_step. simpl. split; [done | by intros []]. }
  wp_step. eapply wp_mono; [apply setup_chroma_client_store |].
  intros [client|e] w1 Hw1; simpl in Hw1;
    [| rewrite Hw1; split; [apply writes_only_refl | by intros []]].
  wp_step. eapply wp_mono; [apply create_collections_writes |].
  intros [collections|e] w2 [Hw2 Hd]; rewrite Hw1 in Hw2;
    [| split; [by apply writes_only_nothing | by intros []]].
  destruct Hd as (h1 & h2 & h3 & -> & Hh1 & Hh3 & Hth).
  wp_step. rewrite dict_getitem_themes. wp_step. wp_step.
  eapply wp_mono; [apply populate_relationship_themes_from_run |].
  intros o w3 Hw3%populate_post_writes. rewrite Hh1 in Hw3.
  assert (writes_only ["relationship_themes"; "game_contexts"]
            (w_store w) (w_store w3)) as Hw3'.
  { eapply writes_only_trans.
    - by apply writes_only_nothing.
    - eapply writes_only_weaken; [| exact Hw3].
      intros n Hn%list_elem_of_singleton. subst n. by left. }
  destruct o as [v|e]; [| split; [done | by intros []]].
  wp_step. rewrite dict_getitem_games. wp_step. wp_step.
  eapply wp_mono; [apply populate_game_contexts_from_run |].
  intros o w4 Hw4%populate_post_writes. rewrite Hh3 in Hw4.
  assert (writes_only ["relationship_themes"; "game_contexts"]
            (w_store w) (w_store w4)) as Hw4'.
  { eapply writes_only_trans; [exact Hw3' |].
    eapply writes_only_weaken; [| exact Hw4].
    intros n Hn%list_elem_of_singleton. subst n. right. by left. }
  destruct o as [v'|e]; [| split; [done | by intros []]].
  wp_step. eapply wp_mono; [apply test_similarity_search_read_only |].
  intros o w5 [Hw5 _]. destruct o as [v''|e]; [| rewrite Hw5; split; [done | by intros []]].
  wp_step. wp_step. wp_step.
  eapply wp_mono; [apply report_counts_store |].
  intros o w6 Hw6. simpl in Hw6. rewrite Hw5 in Hw6.
  destruct o as [[]|e]; [| rewrite Hw6; split; [done | by intros []]].
  wp_step. rewrite Hw6. split; [done |]. intros _.
  apply Hw4, Hw3, Hth.
Qed.

(** C9. A run of [main] changes the records of no collection other than
    relationship_themes and game_contexts; in particular those of
    translator_history are as before. Started on a store without
    collections, a run that returns leaves the collection
    translator_history in the store, with count 0. *)
Theorem translator_history_is_never_populated
    (environ : gmap string string) (w : world vector) :
  let run := main environ w in
  (∀ name, name ≠ "relationship_themes" → name ≠ "game_contexts" →
           entries_of name (w_store run.2) = entries_of name (w_store w))
  ∧ (collections (w_store w) = ∅ → is_Ok run.1 →
     is_Some (collections (w_store run.2) !! "translator_history")
     ∧ count_of "translator_history" (w_store run.2) = 0).
Proof.
  destruct (main_writes environ w) as [[Hentries _] Hthere]. simpl.
  assert (∀ name, name ≠ "relationship_themes" → name ≠ "game_contexts" →
            entries_of name (w_store (main environ w).2)
            = entries_of name (w_store w)) as Hframe.
  { intros name Hn1 Hn2. apply Hentries.
    intros Hin. apply elem_of_cons in Hin as [-> | Hin]; [done |].
    by apply list_elem_of_singleton in Hin. }
  split; [done |]. intros Hempty Hok. split; [by apply Hthere |].
  unfold count_of. rewrite Hframe; [| done | done].
  unfold entries_of. by rewrite Hempty, lookup_empty.
Qed.

End Main.

(** * The theorems at work on the sample environment *)

Module SampleRuns.

Import Sample.

Lemma run_eta {A B} (r : A * B) (a : A) : r.1 = a → r = (a, r.2).
Proof. destruct r. simpl. by intros ->. Defined.

Lemma some_default {A} (o : option A) (d : A) : is_Some o → o = Some (default d o).
Proof. by intros [a ->]. Defined.

Lemma sample_reliable : reliable (env := sample).
Proof. intros tr. reflexivity. Defined.

Lemma sample_batch_exact : batch_exact (env := sample).
Proof. intros model texts. apply length_fmap. Defined.

(** The model at work: the first document, and the log lines of a
    first and of a second run of [create_collections]. *)
Example first_document :
  text_content <$> head RELATIONSHIP_THEMES
  = Some ("resentment Built-up anger, frustration, or bitterness toward partner "
          ++ "You never help with anything I'm tired of doing everything myself "
          ++ "You don't appreciate what I do I feel taken for granted "
          ++ "You always leave me to handle things alone")%string.
Proof. reflexivity. Qed.

Example first_run_creates :
  w_log created
  = [ (INFO, "Created relationship_themes collection");
      (INFO, "Created translator_history collection");
      (INFO, "Created game_contexts collection") ].
Proof. vm_compute. reflexivity. Qed.

Example second_run_fetches :
  w_log (create_collections (env := sample) (Client "localhost" 8000)
           (World (w_store created) [] [])).2
  = [ (INFO, "Using existing relationship_themes collection");
      (INFO, "Using existing translator_history collection");
      (INFO, "Using existing game_contexts collection") ].
Proof. vm_compute. reflexivity. Qed.

Example whole_run_counts :
  (main (env := sample) ∅ fresh).1 = Ok VNone
  ∧ drop 32 (w_log seeded)
    = [ (INFO, "ChromaDB setup completed successfully!");
        (INFO, "Collection 'relationship_themes': 15 documents");
        (INFO, "Collection 'translator_history': 0 documents");
        (INFO, "Collection 'game_contexts': 8 documents") ].
Proof. split; vm_compute; reflexivity. Qed.

(** C2 does not hold as the specification words it: on the empty themes
    collection the call returns, it has written the 15 records of the
    catalog, and what it returns is [None], not the number 15. *)
Lemma populate_result_is_not_the_count :
  length RELATIONSHIP_THEMES = 15
  ∧ (populate_relationship_themes (env := sample) themes_handle created).1 = Ok VNone
  ∧ count_of "relationship_themes"
      (w_store (populate_relationship_themes (env := sample) themes_handle created).2)
    = 15
  ∧ Ok VNone ≠ Ok (VInt 15).
Proof.
  split; [reflexivity |]. split; [vm_compute; reflexivity |].
  split; [vm_compute; reflexivity | discriminate].
Qed.

Lemma populate_returns_none_and_logs_count_witness :
  last (w_log (populate_relationship_themes (env := sample) themes_handle created).2)
  = Some (INFO, "Added 15 relationship themes to collection")
  ∧ last (w_log (populate_game_contexts (env := sample) games_handle created).2)
    = Some (INFO, "Added 8 game contexts to collection").
Proof.
  destruct (populate_returns_none_and_logs_count (env := sample)
              RELATIONSHIP_THEMES game_contexts themes_handle created)
    as [Hthemes _].
  destruct (populate_returns_none_and_logs_count (env := sample)
              RELATIONSHIP_THEMES game_contexts games_handle created)
    as [_ Hgames].
  split.
  - refine (proj1 (proj2 (Hthemes VNone
      (populate_relationship_themes (env := sample) themes_handle created).2 _))).
    apply (run_eta (populate_relationship_themes (env := sample) themes_handle created)).
    vm_compute. reflexivity.
  - refine (proj1 (proj2 (Hgames VNone
      (populate_game_contexts (env := sample) games_handle created).2 _))).
    apply (run_eta (populate_game_contexts (env := sample) games_handle created)).
    vm_compute. reflexivity.
Defined.

Lemma documents_joined_and_encoded_in_one_batch_witness :
  (populate_relationship_themes (env := sample) themes_handle created).1 = Ok VNone
  ∧ w_trace (populate_relationship_themes (env := sample) themes_handle created).2
    = w_trace created
      ++ [ EvSentenceTransformer default_model_name;
           EvEncode default_model_name (joined_by_spaces <$> RELATIONSHIP_THEMES);
           EvAdd themes_handle (joined_by_spaces <$> RELATIONSHIP_THEMES)
             (theme_metadata <$> RELATIONSHIP_THEMES)
             (theme_id <$> RELATIONSHIP_THEMES)
             (encode (Collaborators := sample) default_model_name
                (joined_by_spaces <$> RELATIONSHIP_THEMES)) ].
Proof.
  assert (live themes_handle (w_store created)) as Hlive.
  { exists empty_themes. vm_compute. reflexivity. }
  destruct (proj1 (proj2 (proj2 (proj2
              (documents_joined_and_encoded_in_one_batch (env := sample)
                 themes_handle created)))
              sample_reliable sample_batch_exact Hlive))
    as (Hrun & Htrace & _).
  split; [exact Hrun | exact Htrace].
Defined.

Lemma repopulate_keeps_count_witness :
  (count_of "relationship_themes"
     (w_store (populate_relationship_themes (env := sample) themes_handle seeded).2)
   = 15
   ∧ (populate_relationship_themes (env := sample) themes_handle seeded).1 = Ok VNone)
  ∧ (count_of "game_contexts"
       (w_store (populate_game_contexts (env := sample) games_handle seeded).2)
     = 8
     ∧ (populate_game_contexts (env := sample) games_handle seeded).1 = Ok VNone).
Proof.
  assert (resolve themes_handle (w_store seeded) = Some seeded_themes) as Hthemes
    by (apply some_default, (bool_decide_unpack _); vm_compute; exact I).
  assert (resolve games_handle (w_store seeded) = Some seeded_games) as Hgames
    by (apply some_default, (bool_decide_unpack _); vm_compute; exact I).
  assert (holds_ids seeded_themes (theme_id <$> RELATIONSHIP_THEMES)) as Hheld_themes
    by (apply (bool_decide_unpack _); vm_compute; exact I).
  assert (holds_ids seeded_games (ctx_id <$> game_contexts)) as Hheld_games
    by (apply (bool_decide_unpack _); vm_compute; exact I).
  split.
  - destruct (proj1 (repopulate_keeps_count (env := sample)
                       themes_handle seeded seeded_themes Hthemes) Hheld_themes)
      as [Hcount Hok].
    split; [| exact (Hok sample_reliable sample_batch_exact)].
    etransitivity; [exact Hcount |]. vm_compute. reflexivity.
  - destruct (proj2 (repopulate_keeps_count (env := sample)
                       games_handle seeded seeded_games Hgames) Hheld_games)
      as [Hcount Hok].
    split; [| exact (Hok sample_reliable sample_batch_exact)].
    etransitivity; [exact Hcount |]. vm_compute. reflexivity.
Defined.

Lemma themes_into_empty_collection_witness :
  ∃ w', populate_relationship_themes (env := sample) themes_handle created
        = (Ok VNone, w')
        ∧ count_of "relationship_themes" (w_store w') = 15.
Proof.
  destruct (themes_into_empty_collection (env := sample) themes_handle created
              empty_themes sample_reliable sample_batch_exact)
    as (_ & w' & Hrun & _ & Hcount & _).
  - vm_compute. reflexivity.
  - reflexivity.
  - exists w'. split; [exact Hrun | exact Hcount].
Defined.

Lemma collection_creation_idempotent_witness :
  ∃ handles w1 w2,
    create_collections (env := sample) (Client "localhost" 8000) fresh = (Ok handles, w1)
    ∧ create_collections (env := sample) (Client "localhost" 8000) w1 = (Ok handles, w2)
    ∧ w_store w2 = w_store w1.
Proof.
  exact (proj2 (proj2 (collection_creation_idempotent (env := sample)
                         (Client "localhost" 8000) (Client "localhost" 8000)
                         "relationship_themes"
                         "Semantic themes for relationship conflicts and conversations"
                         [] fresh sample_reliable))).
Defined.


Lemma catalog_ids_unique_witness :
  "resentment" ≠ "disconnection" ∧ "iwr_daily_checkin" ≠ "pause_conflict_spiral".
Proof.
  destruct (catalog_ids_unique 0 1) as [Hthemes Hgames]; [discriminate |].
  split.
  - exact (Hthemes _ _ eq_refl eq_refl).
  - exact (Hgames _ _ eq_refl eq_refl).
Defined.

Lemma translator_history_is_never_populated_witness :
  is_Some (collections (w_store seeded) !! "translator_history")
  ∧ count_of "translator_history" (w_store seeded) = 0.
Proof.
  refine (proj2 (translator_history_is_never_populated (env := sample) ∅ fresh) _ _).
  - reflexivity.
  - vm_compute. exact I.
Defined.

Lemma game_themes_reference_catalog_witness :
  ∃ t, t ∈ RELATIONSHIP_THEMES ∧ theme_id t = "trust".
Proof.
  apply (game_themes_reference_catalog
           (Build_game_context "seven_nights_vulnerability"
              "need vulnerability sharing truth deeper connection intimacy"
              "seven_nights" "Build vulnerability and truth-sharing muscle"
              ["intimacy"; "trust"])).
  - apply (bool_decide_unpack _). vm_compute. exact I.
  - apply (bool_decide_unpack _). vm_compute. exact I.
Defined.

End SampleRuns.

(** * Further properties of the script *)

(** ** Start-up: configuration and connection *)

Section Startup.

Context {vector distance : Type} {env : Collaborators vector distance}.

Implicit Types (w : world vector) (h : handle) (s : store vector) (d : pydict).

(** X1. [setup_chroma_client] makes one call, the connection, and does
    not touch the store. When the call fails, the function raises the
    exception it got, and for an exception that [except Exception]
    catches it has first logged the failure at ERROR level; when the call
    succeeds, it logs host and port and returns the client. *)
Theorem setup_chroma_client_outcomes (host : string) (port : Z) (w : world vector) :
  let run := setup_chroma_client host port w in
  w_store run.2 = w_store w
  ∧ w_trace run.2 = w_trace w ++ [EvHttpClient host port]
  ∧ match fault (w_trace w ++ [EvHttpClient host port]) with
    | Some e =>
        run.1 = Raise e
        ∧ (caught_by_except_Exception e →
           w_log run.2
           = w_log w ++ [(ERROR, ("Failed to connect to ChromaDB: "
                                    ++ exn_str e)%string)])
    | None =>
        run.1 = Ok (Client host port)
        ∧ w_log run.2
          = w_log w ++ [(INFO, ("Connected to ChromaDB at " ++ host ++ ":"
                                  ++ pretty port)%string)]
    end.
Proof.
  unfold setup_chroma_client, try_except, bind, HttpClient, external. simpl.
  by destruct (fault (w_trace w ++ [EvHttpClient host port])).
Qed.


(** X3. When the connection fails with an exception that
    [except Exception] catches, [main] raises that exception. It has made
    that one call only, the store is as it was, and the failure is logged
    twice: by [setup_chroma_client] and by [main] itself. *)
Theorem main_connection_failure (environ : gmap string string) (port : Z) (e : exn)
    (w : world vector) :
  let host := getenv environ "CHROMA_HOST" "localhost" in
  py_int (getenv environ "CHROMA_PORT" "8000") = Some port →
  fault (w_trace w ++ [EvHttpClient host port]) = Some e →
  caught_by_except_Exception e →
  main environ w
  = (Raise e,
     World (w_store w) (w_trace w ++ [EvHttpClient host port])
       (w_log w ++ [ (INFO, "Starting ChromaDB setup for TERI Model...");
                     (ERROR, ("Failed to connect to ChromaDB: " ++ exn_str e)%string);
                     (ERROR, ("Setup failed: " ++ exn_str e)%string) ])).
Proof.
  intros host Hport Hfault _. unfold main, int_of_str. rewrite Hport.
  erewrite bind_Ok; [| reflexivity].
  erewrite bind_Ok; [| reflexivity].
  unfold try_except at 1.
  erewrite bind_Raise.
  2: { unfold setup_chroma_client, try_except, bind, HttpClient, external. simpl.
       fold host. rewrite Hfault. reflexivity. }
  unfold bind, logger, raise. simpl. by rewrite <- !app_assoc.
Qed.

(** X4. [generate_embeddings] never touches the store. When it returns,
    it has loaded the model named and encoded the texts given in one
    call, it returns what the encoder produced for them, and it has logged
    the number of vectors it got; when it raises, it has logged nothing. *)
Theorem generate_embeddings_outcomes (texts : list string) (model_name : string)
    (w : world vector) :
  let run := generate_embeddings texts model_name w in
  w_store run.2 = w_store w
  ∧ match run.1 with
    | Ok embeddings =>
        embeddings = encode model_name texts
        ∧ w_trace run.2
          = w_trace w ++ [EvSentenceTransformer model_name; EvEncode model_name texts]
        ∧ w_log run.2
          = w_log w ++ [(INFO, ("Generated " ++ str_of_nat (length embeddings)
                                  ++ " embeddings")%string)]
    | Raise _ => w_log run.2 = w_log w
    end.
Proof.
  unfold generate_embeddings, bind, SentenceTransformer, model_encode, external,
    logger, ret. simpl.
  destruct (fault (w_trace w ++ [EvSentenceTransformer model_name])); [done |].
  simpl. destruct (fault _); [done |]. simpl. by rewrite <- app_assoc.
Qed.

End Startup.

(** ** The verifier's calls and failures *)

Section VerifierCalls.

Context {vector distance : Type} {env : Collaborators vector distance}.

Implicit Types (w : world vector) (h : handle) (s : store vector) (d : pydict).

(** The body of the verifier's loop, lines 417-429. *)
Local Notation "'query_round' h" := (λ query : string,
  bind (collection_query h [query] 3) (λ results,
  bind (logger INFO ("Query: '" ++ query ++ "'")%string) (λ _,
  bind (getitem0 (qr_documents results)) (λ documents,
  bind (getitem0 (qr_metadatas results)) (λ metadatas,
  bind (getitem0 (qr_distances results)) (λ distances,
  bind (for_each (enumerate_zip3 documents metadatas distances)
          (λ '(i, (doc, metadata, dist)),
           bind (metadata_getitem metadata "theme") (λ theme,
           logger INFO ("  " ++ str_of_nat (i + 1) ++ ". Theme: " ++ str_of_meta theme
                          ++ " (distance: " ++ format_3f dist ++ ")")%string)))
    (λ _, logger INFO EmptyString))))))) (at level 10, h at level 9, only parsing).

(** One round makes exactly one call, its query, however it ends. *)
Lemma query_round_trace h query w :
  wp (query_round h query) w
     (λ _ w', w_trace w' = w_trace w ++ [EvQuery h [query] 3]).
Proof.
  wp_step. unfold collection_query. wp_call; [done |].
  intros _. destruct (resolve h (w_store w)); [| done].
  wp_step. wp_step. simpl.
  wp_step. wp_step. wp_step. wp_step. wp_step. wp_step.
  wp_step. eapply wp_mono.
  { apply (wp_for_each (λ w', w_trace w' = w_trace w ++ [EvQuery h [query] 3]));
      [done |].
    intros [i [[doc metadata] dist]] w3 _ Hw3. wp_step.
    unfold metadata_getitem.
    destruct metadata as [md|]; [| by apply wp_raise].
    destruct (md !! "theme") as [v|]; [| by apply wp_raise].
    wp_step. by wp_step. }
  intros [[]|e] w3 Hw3; [| done]. by wp_step.
Qed.

(** The rounds run in order and stop at the first that raises. *)
Lemma query_rounds_trace h (queries : list string) w :
  wp (for_each queries (query_round h)) w
     (λ o w', ∃ evs, w_trace w' = w_trace w ++ evs
                     ∧ evs `prefix_of` query_calls h queries
                     ∧ match o with
                       | Ok _ => evs = query_calls h queries
                       | Raise _ => evs ≠ []
                       end).
Proof.
  revert w. induction queries as [|query queries IH]; intros w.
  - apply wp_ret. exists []. by rewrite app_nil_r.
  - cbn [for_each]. wp_step. eapply wp_mono; [apply query_round_trace |].
    intros [[]|e] w1 Hw1.
    + eapply wp_mono; [apply IH |].
      intros o w2 (evs & Hw2 & Hpre & Ho).
      exists (EvQuery h [query] 3 :: evs). rewrite Hw2, Hw1, <- app_assoc.
      split; [done |]. split; [by apply prefix_cons |].
      destruct o; [by rewrite Ho | done].
    + exists [EvQuery h [query] 3]. split; [done |].
      split; [| done]. apply prefix_cons, prefix_nil.
Qed.

(** X5. The calls [test_similarity_search] makes are queries on the
    handle filed under "relationship_themes", one per test query and in
    their order, each with that one text and asking for three results. A
    run that returns has made all four; one that raises stopped at the
    first round that failed. *)
Theorem verifier_queries_in_order (collections : pydict) (h : handle)
    (w : world vector) :
  dict_lookup "relationship_themes" collections = Some h →
  let run := test_similarity_search collections w in
  ∃ evs, w_trace run.2 = w_trace w ++ evs
         ∧ evs `prefix_of` query_calls h test_queries
         ∧ match run.1 with
           | Ok v => v = VNone ∧ evs = query_calls h test_queries
           | Raise _ => evs ≠ []
           end.
Proof.
  intros Hh. unfold test_similarity_search, dict_getitem. rewrite Hh.
  change (wp (bind (logger INFO "Testing similarity search...") (λ _,
            bind (ret h) (λ themes_collection,
            bind (for_each test_queries (query_round themes_collection)) (λ _,
            ret VNone)))) w
          (λ o w', ∃ evs, w_trace w' = w_trace w ++ evs
                          ∧ evs `prefix_of` query_calls h test_queries
                          ∧ match o with
                            | Ok v => v = VNone ∧ evs = query_calls h test_queries
                            | Raise _ => evs ≠ []
                            end)).
  wp_step. wp_step. wp_step. wp_step. wp_step.
  eapply wp_mono; [apply query_rounds_trace |].
  intros [[]|e] w1 (evs & Hw1 & Hpre & Ho); [| by exists evs].
  wp_step. by exists evs.
Qed.

(** X6. Without the key "relationship_themes" in the dict it is given,
    [test_similarity_search] raises a KeyError after its first log line
    and makes no call at all. *)
Theorem verifier_needs_themes_key (collections : pydict) (w : world vector) :
  dict_lookup "relationship_themes" collections = None →
  test_similarity_search collections w
  = (Raise (Exn "KeyError" "'relationship_themes'"),
     World (w_store w) (w_trace w)
       (w_log w ++ [(INFO, "Testing similarity search...")])).
Proof.
  intros Hnone. unfold test_similarity_search, dict_getitem. rewrite Hnone. done.
Qed.

(** X7. The verifier reads the "theme" key of the metadata of every hit.
    When the first hit of the first query has no metadata, or metadata
    without that key, the run raises (a TypeError, respectively a
    KeyError) after that one query: the other three queries are not
    made. *)
Theorem verifier_needs_theme_metadata (collections : pydict) (h : handle)
    (w : world vector) (c : collection vector)
    (hit : string * option metadata * distance) :
  let first_query := "I'm so tired of doing all the housework" in
  dict_lookup "relationship_themes" collections = Some h →
  fault (w_trace w ++ [EvQuery h [first_query] 3]) = None →
  resolve h (w_store w) = Some c →
  head (nearest (c_entries c) first_query 3) = Some hit →
  hit.1.2 ≫= (.!! "theme") = None →
  let run := test_similarity_search collections w in
  run.1 = Raise (match hit.1.2 with
                 | None => Exn "TypeError" "'NoneType' object is not subscriptable"
                 | Some _ => Exn "KeyError" "'theme'"
                 end)
  ∧ w_trace run.2 = w_trace w ++ [EvQuery h [first_query] 3]
  ∧ w_store run.2 = w_store w.
Proof.
  intros first_query Hh Hfault Hc Hhead Htheme.
  enough (wp (test_similarity_search collections) w
            (λ o w', o = Raise (match hit.1.2 with
                                | None => Exn "TypeError"
                                            "'NoneType' object is not subscriptable"
                                | Some _ => Exn "KeyError" "'theme'"
                                end)
                     ∧ w_trace w' = w_trace w ++ [EvQuery h [first_query] 3]
                     ∧ w_store w' = w_store w)) as Hwp by exact Hwp.
  unfold test_similarity_search, dict_getitem. rewrite Hh.
  unfold test_queries. cbn [for_each].
  wp_step. wp_step. wp_step. wp_step. wp_step. wp_step. wp_step.
  unfold collection_query. wp_call; fold first_query; [by rewrite Hfault |].
  intros _. rewrite Hc.
  destruct (nearest (c_entries c) first_query 3) as [|hit' hits] eqn:Hhits;
    [done |].
  injection Hhead as ->. destruct hit as [[doc md] dist].
  cbn [fmap list_fmap].
  wp_step. wp_step. cbn [qr_documents qr_metadatas qr_distances getitem0].
  wp_step. wp_step. wp_step. wp_step. wp_step. wp_step. wp_step.
  unfold enumerate_zip3. cbn [zip zip_with imap for_each fst snd].
  wp_step. wp_step. unfold metadata_getitem.
  destruct md as [md|]; simpl in Htheme.
  - rewrite Htheme. by wp_step.
  - by wp_step.
Qed.

End VerifierCalls.

(** ** Collection creation, on every path *)

Section CreationPaths.

Context {vector distance : Type} {env : Collaborators vector distance}.

Implicit Types (w : world vector) (h : handle) (s : store vector) (d : pydict).

Lemma wp_conj {A} (m : M A) w (P Q : outcome A → world vector → Prop) :
  wp m w P → wp m w Q → wp m w (λ o w', P o w' ∧ Q o w').
Proof. unfold wp. auto. Qed.

(** X8. [create_collections] writes no records: whether it returns or
    raises, and whatever fails on the way, every collection name has the
    records it had before (a collection it creates is empty), and every
    collection that was there still is. *)
Theorem create_collections_writes_no_records (cl : client) (w : world vector) :
  let run := create_collections cl w in
  (∀ name, entries_of name (w_store run.2) = entries_of name (w_store w)
           ∧ count_of name (w_store run.2) = count_of name (w_store w))
  ∧ (∀ name, is_Some (collections (w_store w) !! name) →
             is_Some (collections (w_store run.2) !! name)).
Proof.
  destruct (create_collections_writes cl w) as [[Hentries Hthere] _]. simpl.
  split; [| done]. intros name.
  assert (entries_of name (w_store (create_collections cl w).2)
          = entries_of name (w_store w)) as Heq.
  { apply Hentries. apply not_elem_of_nil. }
  split; [done |]. unfold count_of. by rewrite Heq.
Qed.

(** One create-or-get statement that returns has filed, under the
    name, a handle to the collection the store now has under that name;
    the collections of other names are as they were. *)
Lemma create_collections_step_handle cl name description d w :
  wp (create_collections_step cl name description d) w
     (λ o w', match o with
              | Ok d' =>
                  ∃ c, d' = dict_set name (Handle name (c_uuid c)) d
                       ∧ collections (w_store w') !! name = Some c
                       ∧ ∀ n, n ≠ name →
                           collections (w_store w') !! n = collections (w_store w) !! n
              | Raise _ => True
              end).
Proof.
  unfold create_collections_step. wp_step. wp_step.
  assert (∀ e (w1 : world vector),
    w_store w1 = w_store w →
    wp (if py_in "already exists" (exn_str e)
        then bind (get_collection cl name) (λ h,
               bind (logger INFO ("Using existing " ++ name ++ " collection")%string)
                 (λ _, ret (dict_set name h d)))
        else raise e) w1
       (λ o w', match o with
                | Ok d' =>
                    ∃ c, d' = dict_set name (Handle name (c_uuid c)) d
                         ∧ collections (w_store w') !! name = Some c
                         ∧ ∀ n, n ≠ name →
                             collections (w_store w') !! n
                             = collections (w_store w) !! n
                | Raise _ => True
                end)) as Hhandler.
  { intros e w1 Hst. destruct (py_in _ _); [| by apply wp_raise].
    wp_step. unfold get_collection. wp_call; [done |].
    intros _. rewrite Hst.
    destruct (collections (w_store w) !! name) as [c|] eqn:Hc; [| done].
    wp_step. wp_step. wp_step. simpl. by exists c. }
  unfold create_collection. wp_call.
  - intros e _. by apply Hhandler.
  - intros _. destruct (collections (w_store w) !! name) as [c|] eqn:Hc.
    + by apply Hhandler.
    + wp_step. wp_step. wp_step. simpl.
      eexists (Collection _ _ _). split; [done |].
      split; [by rewrite lookup_insert_eq |].
      intros n Hn. by rewrite lookup_insert_ne.
Qed.

(** The dict [create_collections] returns, with the collections its
    handles denote. *)
Lemma create_collections_handles cl w :
  wp (create_collections cl) w
     (λ o w', match o with
              | Ok d =>
                  ∃ c1 c2 c3,
                    d = [ ("relationship_themes",
                           Handle "relationship_themes" (c_uuid c1));
                          ("translator_history",
                           Handle "translator_history" (c_uuid c2));
                          ("game_contexts", Handle "game_contexts" (c_uuid c3)) ]
                    ∧ collections (w_store w') !! "relationship_themes" = Some c1
                    ∧ collections (w_store w') !! "translator_history" = Some c2
                    ∧ collections (w_store w') !! "game_contexts" = Some c3
              | Raise _ => True
              end).
Proof.
  unfold create_collections. wp_step.
  eapply wp_mono; [apply create_collections_step_handle |].
  intros [d1|e] wa Hd1; [| done]. destruct Hd1 as (c1 & -> & Hc1 & _).
  wp_step. eapply wp_mono; [apply create_collections_step_handle |].
  intros [d2|e] wb Hd2; [| done]. destruct Hd2 as (c2 & -> & Hc2 & Hb).
  wp_step. eapply wp_mono; [apply create_collections_step_handle |].
  intros [d3|e] wc Hd3; [| done]. destruct Hd3 as (c3 & -> & Hc3 & Hc).
  wp_step. exists c1, c2, c3. split; [done |].
  split; [by rewrite Hc, Hb |]. split; [by rewrite Hc | done].
Qed.

Lemma resolve_named name (c : collection vector) s :
  collections s !! name = Some c → resolve (Handle name (c_uuid c)) s = Some c.
Proof.
  intros Hc. unfold resolve. simpl. rewrite Hc. by rewrite decide_True.
Qed.

(** X9. The dict [create_collections] returns has exactly the keys
    "relationship_themes", "translator_history" and "game_contexts", in
    this order, and under each key a handle that carries the key as its
    name and denotes a collection of the store; this does not depend on
    which of the collections were created and which were fetched. *)
Theorem create_collections_returns_three_live_handles (cl : client) (w : world vector) :
  let run := create_collections cl w in
  match run.1 with
  | Ok d =>
      d.*1 = ["relationship_themes"; "translator_history"; "game_contexts"]
      ∧ Forall (λ kv, h_name kv.2 = kv.1 ∧ live kv.2 (w_store run.2)) d
  | Raise _ => True
  end.
Proof.
  pose proof (create_collections_handles cl w) as Hwp. unfold wp in Hwp. simpl.
  destruct (create_collections cl w).1 as [d|e]; [| done].
  destruct Hwp as (c1 & c2 & c3 & -> & H1 & H2 & H3). split; [done |].
  repeat (apply Forall_cons;
          split; [split; [done | eexists; by apply resolve_named] |]).
  apply Forall_nil_2.
Qed.

(** X10. The script takes any failure of [create_collection] whose text
    contains "already exists" for the collection being there. When it is
    not there, the statement does not re-raise that failure: what leaves
    it is the error of the [get_collection] call it goes on to make. *)
Theorem misread_failure_surfaces_as_missing_collection
    (cl : client) (name description : string) (d : pydict)
    (w w1 : world vector) (e : exn) :
  create_collection cl name {[ "description" := MStr description ]} w = (Raise e, w1) →
  py_in "already exists" (exn_str e) = true →
  collections (w_store w1) !! name = None →
  fault (w_trace w1 ++ [EvGetCollection name]) = None →
  create_collections_step cl name description d w
  = (Raise (no_such_collection name),
     World (w_store w1) (w_trace w1 ++ [EvGetCollection name]) (w_log w1)).
Proof.
  intros Hcreate Htext Hnone Hfault. unfold create_collections_step, try_except.
  erewrite bind_Raise; [| exact Hcreate]. rewrite Htext.
  erewrite bind_Raise; [done |].
  unfold get_collection. erewrite external_Raise; [done | done |].
  by rewrite Hnone.
Qed.

(** X17. [create_collections] does not undo what it has done: when the
    collection relationship_themes was created and the statement for
    translator_history then raises, the exception leaves the function
    and the new, empty collection stays in the store. The statement for
    game_contexts is not reached. *)
Theorem create_collections_does_not_roll_back (cl : client) (w : world vector) (e : exn) :
  let themes_md : metadata :=
    {[ "description" :=
         MStr "Semantic themes for relationship conflicts and conversations" ]} in
  let history_md : metadata :=
    {[ "description" := MStr "Historical translator outputs for pattern learning" ]} in
  collections (w_store w) !! "relationship_themes" = None →
  fault (w_trace w ++ [EvCreateCollection "relationship_themes" themes_md]) = None →
  fault (w_trace w ++ [EvCreateCollection "relationship_themes" themes_md;
                       EvCreateCollection "translator_history" history_md])
  = Some e →
  py_in "already exists" (exn_str e) = false →
  let run := create_collections cl w in
  run.1 = Raise e
  ∧ collections (w_store run.2)
    = <["relationship_themes" := Collection (next_uuid (w_store w)) themes_md ∅]>
        (collections (w_store w))
  ∧ w_trace run.2
    = w_trace w ++ [EvCreateCollection "relationship_themes" themes_md;
                    EvCreateCollection "translator_history" history_md].
Proof.
  intros themes_md history_md Hnone Hf1 Hf2 Htext.
  enough (wp (create_collections cl) w (λ o w',
            o = Raise e
            ∧ collections (w_store w')
              = <["relationship_themes" :=
                    Collection (next_uuid (w_store w)) themes_md ∅]>
                  (collections (w_store w))
            ∧ w_trace w'
              = w_trace w ++ [EvCreateCollection "relationship_themes" themes_md;
                              EvCreateCollection "translator_history" history_md]))
    as Hwp by exact Hwp.
  unfold create_collections, create_collections_step.
  wp_step. wp_step. wp_step. unfold create_collection at 1. wp_call.
  { fold themes_md. by rewrite Hf1. }
  intros _. rewrite Hnone. wp_step. wp_step. wp_step.
  wp_step. wp_step. wp_step. unfold create_collection at 1. wp_call.
  - fold themes_md history_md. rewrite <- app_assoc. cbn [app].
    rewrite Hf2. intros e' [= <-]. rewrite Htext. by wp_step.
  - fold themes_md history_md. rewrite <- app_assoc. cbn [app].
    by rewrite Hf2.
Qed.

End CreationPaths.

(** ** The populate functions, on every path and for any catalog *)

Section PopulatePaths.

Context {vector distance : Type} {env : Collaborators vector distance}.

Implicit Types (w : world vector) (h : handle) (s : store vector) (d : pydict).

Lemma populate_post_frame h documents metadatas ids msg w o w' :
  populate_post h documents metadatas ids msg w o w' →
  (∀ name, name ≠ h_name h →
     entries_of name (w_store w') = entries_of name (w_store w))
  ∧ (∀ name, is_Some (collections (w_store w) !! name) →
       is_Some (collections (w_store w') !! name)).
Proof.
  intros Hpost. destruct (populate_post_writes _ _ _ _ _ _ _ _ Hpost) as [He Hp].
  split; [| done].
  intros name Hname. apply He. by intros ->%list_elem_of_singleton.
Qed.

(** When loading the model or encoding fails, the rest of a populate
    function is not run: the exception leaves it, [add] was not called
    and the store is as it was. *)
Lemma embedding_failure_run h documents metadatas ids (msg : string) (e : exn) w0 w :
  w_trace w = w_trace w0 → w_store w = w_store w0 →
  fault (w_trace w0 ++ [EvSentenceTransformer default_model_name]) = Some e
  ∨ (fault (w_trace w0 ++ [EvSentenceTransformer default_model_name]) = None
     ∧ fault (w_trace w0 ++ [EvSentenceTransformer default_model_name;
                             EvEncode default_model_name documents]) = Some e) →
  wp (bind (generate_embeddings documents default_model_name) (λ embeddings,
      bind (collection_add h documents metadatas ids embeddings) (λ _,
      bind (logger INFO msg) (λ _, ret VNone)))) w
     (λ o w', o = Raise e
              ∧ w_store w' = w_store w0
              ∧ ∃ evs, w_trace w' = w_trace w0 ++ evs
                       ∧ Forall (λ ev, ¬ is_add ev) evs).
Proof.
  intros Htr Hst Hfail. unfold generate_embeddings.
  wp_step. wp_step. unfold SentenceTransformer. wp_call; rewrite Htr.
  - intros e' He'. destruct Hfail as [Hload | [Hload _]];
      rewrite Hload in He'; [| done]. injection He' as <-.
    split; [done |]. split; [done |]. eexists [_]. split; [done |].
    apply Forall_singleton. by intros [].
  - intros Hload. destruct Hfail as [Hload' | [_ Hencode]];
      [by rewrite Hload in Hload' |].
    wp_step. unfold model_encode. wp_call; rewrite <- app_assoc; cbn [app].
    + rewrite Hencode. intros e' [= <-].
      split; [done |]. split; [done |]. eexists [_; _]. split; [done |].
      repeat (apply Forall_cons; split; [by intros [] |]). apply Forall_nil_2.
    + by rewrite Hencode.
Qed.

(** X11. When loading the model or encoding the documents fails, a
    populate function raises that exception without having called [add],
    and the store is exactly as it was; this holds for any catalog. On
    every path the records of collections other than the one the function
    is given are untouched and no collection disappears. *)
Theorem embedding_failure_writes_nothing (catalog : list theme_record)
    (contexts : list game_context) (h : handle) (w : world vector) (e : exn) :
  let load := EvSentenceTransformer default_model_name in
  let fails_on (documents : list string) :=
    fault (w_trace w ++ [load]) = Some e
    ∨ (fault (w_trace w ++ [load]) = None
       ∧ fault (w_trace w ++ [load; EvEncode default_model_name documents])
         = Some e) in
  (let run := populate_relationship_themes_from catalog h w in
   (fails_on (text_content <$> catalog) →
    run.1 = Raise e
    ∧ w_store run.2 = w_store w
    ∧ ∃ evs, w_trace run.2 = w_trace w ++ evs ∧ Forall (λ ev, ¬ is_add ev) evs)
   ∧ (∀ name, name ≠ h_name h →
        entries_of name (w_store run.2) = entries_of name (w_store w))
   ∧ (∀ name, is_Some (collections (w_store w) !! name) →
        is_Some (collections (w_store run.2) !! name)))
  ∧ (let run := populate_game_contexts_from contexts h w in
     (fails_on (ctx_context <$> contexts) →
      run.1 = Raise e
      ∧ w_store run.2 = w_store w
      ∧ ∃ evs, w_trace run.2 = w_trace w ++ evs ∧ Forall (λ ev, ¬ is_add ev) evs)
     ∧ (∀ name, name ≠ h_name h →
          entries_of name (w_store run.2) = entries_of name (w_store w))
     ∧ (∀ name, is_Some (collections (w_store w) !! name) →
          is_Some (collections (w_store run.2) !! name))).
Proof.
  intros load fails_on. split.
  - split; [| exact (populate_post_frame _ _ _ _ _ _ _ _
                       (populate_relationship_themes_from_run catalog h w))].
    intros Hfail.
    enough (wp (populate_relationship_themes_from catalog h) w
              (λ o w', o = Raise e
                       ∧ w_store w' = w_store w
                       ∧ ∃ evs, w_trace w' = w_trace w ++ evs
                                ∧ Forall (λ ev, ¬ is_add ev) evs))
      as Hwp by exact Hwp.
    unfold populate_relationship_themes_from. rewrite prepare_themes_maps.
    wp_step. wp_step. by apply embedding_failure_run.
  - split; [| exact (populate_post_frame _ _ _ _ _ _ _ _
                       (populate_game_contexts_from_run contexts h w))].
    intros Hfail.
    enough (wp (populate_game_contexts_from contexts h) w
              (λ o w', o = Raise e
                       ∧ w_store w' = w_store w
                       ∧ ∃ evs, w_trace w' = w_trace w ++ evs
                                ∧ Forall (λ ev, ¬ is_add ev) evs))
      as Hwp by exact Hwp.
    unfold populate_game_contexts_from.
    wp_step. wp_step. by apply embedding_failure_run.
Qed.

Lemma populate_post_foreign h documents metadatas ids msg w o w' i :
  length documents = length ids → length metadatas = length ids →
  populate_post h documents metadatas ids msg w o w' →
  i ∉ ids →
  entries_of (h_name h) (w_store w') !! i = entries_of (h_name h) (w_store w) !! i.
Proof.
  intros Hd Hm (evs & _ & _ & Ho) Hi. destruct o as [v|e]; [| by rewrite Ho].
  destruct Ho as (_ & _ & _ & He & c & Hc & ->).
  rewrite entries_of_insert, (entries_of_resolve _ _ _ Hc). cbn [c_entries].
  unfold entries_after_add. apply foldl_add_entry_other.
  by rewrite offered_ids.
Qed.

(** X12. A populate function touches only the ids of its catalog: a
    record the collection holds under any other id is, after the run,
    exactly the record it was, and an id that was free is still free. *)
Theorem populate_keeps_foreign_records (catalog : list theme_record)
    (contexts : list game_context) (h : handle) (w : world vector) (i : string) :
  (i ∉ theme_id <$> catalog →
   entries_of (h_name h) (w_store (populate_relationship_themes_from catalog h w).2) !! i
   = entries_of (h_name h) (w_store w) !! i)
  ∧ (i ∉ ctx_id <$> contexts →
     entries_of (h_name h) (w_store (populate_game_contexts_from contexts h w).2) !! i
     = entries_of (h_name h) (w_store w) !! i).
Proof.
  split; intros Hi.
  - eapply populate_post_foreign;
      [| | apply populate_relationship_themes_from_run | done];
      by rewrite !length_fmap.
  - eapply populate_post_foreign;
      [| | apply populate_game_contexts_from_run | done];
      by rewrite !length_fmap.
Qed.

(** When [add] keeps what is stored, offering records under ids that
    are all taken changes nothing. *)
Lemma foldl_add_entry_kept (rs : list (string * entry vector)) entries :
  (∀ stored offered, on_existing stored offered = stored) →
  Forall (λ i, is_Some (entries !! i)) rs.*1 →
  foldl add_entry entries rs = entries.
Proof.
  intros Hkeep. induction rs as [|r rs IH]; intros Hheld; [done |].
  simpl in Hheld. apply Forall_cons in Hheld as [[stored Hr] Hheld]. simpl.
  assert (add_entry entries r = entries) as ->; [| by apply IH].
  unfold add_entry. rewrite Hr, Hkeep. by apply insert_id.
Qed.

Lemma populate_post_kept h documents metadatas ids msg w o w' c :
  (∀ stored offered, on_existing stored offered = stored) →
  length documents = length ids → length metadatas = length ids →
  resolve h (w_store w) = Some c → holds_ids c ids →
  populate_post h documents metadatas ids msg w o w' →
  entries_of (h_name h) (w_store w') = c_entries c.
Proof.
  intros Hkeep Hd Hm Hc Hheld (evs & _ & _ & Ho). destruct o as [v|e].
  - destruct Ho as (_ & _ & _ & He & c' & Hc' & ->). simplify_eq.
    rewrite entries_of_insert. cbn [c_entries]. unfold entries_after_add.
    apply foldl_add_entry_kept; [done |]. by rewrite offered_ids.
  - rewrite Ho. by apply entries_of_resolve.
Qed.

(** X14. Where the store's [add] keeps what it has under an id that is
    taken, as ChromaDB's does, a populate run on a collection that
    already holds every id of the catalog changes no record: documents,
    metadata and embeddings stay as stored, whatever the catalog now says
    about these ids. *)
Theorem repopulate_does_not_refresh (catalog : list theme_record)
    (contexts : list game_context) (h : handle) (w : world vector)
    (c : collection vector) :
  (∀ stored offered, on_existing stored offered = stored) →
  resolve h (w_store w) = Some c →
  (holds_ids c (theme_id <$> catalog) →
   entries_of (h_name h) (w_store (populate_relationship_themes_from catalog h w).2)
   = c_entries c)
  ∧ (holds_ids c (ctx_id <$> contexts) →
     entries_of (h_name h) (w_store (populate_game_contexts_from contexts h w).2)
     = c_entries c).
Proof.
  intros Hkeep Hc. split; intros Hheld.
  - eapply populate_post_kept;
      [done | | | done | done | apply populate_relationship_themes_from_run];
      by rewrite !length_fmap.
  - eapply populate_post_kept;
      [done | | | done | done | apply populate_game_contexts_from_run];
      by rewrite !length_fmap.
Qed.


End PopulatePaths.

(** ** The whole run, again *)

Section MainPaths.

Context {vector distance : Type} {env : Collaborators vector distance}.

Implicit Types (w : world vector) (h : handle) (s : store vector) (d : pydict).

Lemma wp_true {A} (m : M A) w : wp m w (λ _ _, True).
Proof. done. Qed.

(** The report loop of lines 456-458: when it returns, it has asked
    each handle of the dict for its count, in the dict's order, and has
    logged one line per key with the count of the collection of the
    handle. It never changes the store. *)
Lemma report_counts_exact (d : pydict) w :
  wp (for_each d (λ '(name, collection),
        bind (collection_count collection) (λ count,
          logger INFO ("Collection '" ++ name ++ "': " ++ str_of_nat count
                         ++ " documents")%string))) w
     (λ o w', w_store w' = w_store w
              ∧ match o with
                | Ok _ =>
                    w_trace w' = w_trace w ++ count_calls d
                    ∧ w_log w'
                      = w_log w
                        ++ ((λ kv, report_line kv.1
                                     (count_of (h_name kv.2) (w_store w))) <$> d)
                | Raise _ => True
                end).
Proof.
  revert w. induction d as [|[name h] d IH]; intros w.
  - apply wp_ret. split; [done |]. by rewrite !app_nil_r.
  - cbn [for_each]. wp_step. wp_step. unfold collection_count. wp_call; [done |].
    intros _. destruct (resolve h (w_store w)) as [c|] eqn:Hc; [| done].
    wp_step. lazy beta iota. eapply wp_mono; [apply IH |].
    intros o w' [Hst Ho]. simpl in *. split; [done |].
    destruct o; [| done]. destruct Ho as [-> ->].
    rewrite <- !app_assoc. split; [done |]. do 2 f_equal.
    unfold report_line, count_of. by rewrite (entries_of_resolve _ _ _ Hc).
Qed.

(** X16. When [main] returns, its last three calls are [count()] on the
    handles of relationship_themes, translator_history and game_contexts,
    in this order, and its last three log lines report, for these names in
    this order, the number of records the collection has in the store the
    run leaves. *)
Theorem main_reports_final_counts (environ : gmap string string) (w : world vector) :
  let run := main environ w in
  match run.1 with
  | Ok _ =>
      ∃ earlier_calls earlier_lines h1 h2 h3,
        w_trace run.2 = earlier_calls ++ [EvCount h1; EvCount h2; EvCount h3]
        ∧ h_name h1 = "relationship_themes"
        ∧ h_name h2 = "translator_history"
        ∧ h_name h3 = "game_contexts"
        ∧ w_log run.2
          = earlier_lines
            ++ [ report_line "relationship_themes"
                   (count_of "relationship_themes" (w_store run.2));
                 report_line "translator_history"
                   (count_of "translator_history" (w_store run.2));
                 report_line "game_contexts"
                   (count_of "game_contexts" (w_store run.2)) ]
  | Raise _ => True
  end.
Proof.
  enough (wp (main environ) w (λ o w',
    match o with
    | Ok _ =>
        ∃ earlier_calls earlier_lines h1 h2 h3,
          w_trace w' = earlier_calls ++ [EvCount h1; EvCount h2; EvCount h3]
          ∧ h_name h1 = "relationship_themes"
          ∧ h_name h2 = "translator_history"
          ∧ h_name h3 = "game_contexts"
          ∧ w_log w'
            = earlier_lines
              ++ [ report_line "relationship_themes"
                     (count_of "relationship_themes" (w_store w'));
                   report_line "translator_history"
                     (count_of "translator_history" (w_store w'));
                   report_line "game_contexts"
                     (count_of "game_contexts" (w_store w')) ]
    | Raise _ => True
    end)) as Hwp by exact Hwp.
  unfold main, int_of_str. wp_step.
  destruct (py_int _) as [port|]; [| by apply wp_raise].
  wp_step. wp_step. wp_step. wp_step. wp_step.
  eapply wp_mono; [apply wp_true |].
  intros [client|e] w1 _; [| by wp_step; wp_step; wp_step].
  wp_step. eapply wp_mono; [apply create_collections_handles |].
  intros [collections|e] w2 Hd; [| by wp_step; wp_step; wp_step].
  destruct Hd as (c1 & c2 & c3 & -> & _).
  wp_step. rewrite dict_getitem_themes. wp_step. wp_step.
  eapply wp_mono; [apply wp_true |].
  intros [v|e] w3 _; [| by wp_step; wp_step; wp_step].
  wp_step. rewrite dict_getitem_games. wp_step. wp_step.
  eapply wp_mono; [apply wp_true |].
  intros [v'|e] w4 _; [| by wp_step; wp_step; wp_step].
  wp_step. eapply wp_mono; [apply wp_true |].
  intros [v''|e] w5 _; [| by wp_step; wp_step; wp_step].
  wp_step. wp_step. wp_step.
  eapply wp_mono; [apply report_counts_exact |].
  intros [[]|e] w6 [Hst Ho]; [| by wp_step; wp_step; wp_step].
  destruct Ho as [Htr Hlog]. wp_step. cbn [w_store w_trace w_log] in *.
  eexists _, _, _, _, _. split; [exact Htr |].
  split; [done |]. split; [done |]. split; [done |].
  rewrite Hlog, Hst. done.
Qed.

Lemma populate_post_counts h documents metadatas ids msg w o w' c :
  length documents = length ids → length metadatas = length ids →
  resolve h (w_store w) = Some c → holds_ids c ids →
  populate_post h documents metadatas ids msg w o w' →
  ∀ name, count_of name (w_store w') = count_of name (w_store w).
Proof.
  intros Hd Hm Hc Hheld Hpost name.
  destruct (decide (name = h_name h)) as [-> | Hne].
  - by eapply populate_post_count.
  - unfold count_of. f_equal.
    by apply (populate_post_frame _ _ _ _ _ _ _ _ Hpost).
Qed.

(** X15. Run again on a store whose collections relationship_themes
    and game_contexts already hold a record under every id of their
    catalog, [main] changes the count of no collection, however the run
    ends and whatever fails on the way. *)
Theorem main_rerun_keeps_counts (environ : gmap string string) (w : world vector) :
  Forall (λ i, is_Some (entries_of "relationship_themes" (w_store w) !! i))
         (theme_id <$> RELATIONSHIP_THEMES) →
  Forall (λ i, is_Some (entries_of "game_contexts" (w_store w) !! i))
         (ctx_id <$> game_contexts) →
  ∀ name, count_of name (w_store (main environ w).2) = count_of name (w_store w).
Proof.
  intros Hthemes Hgames.
  enough (wp (main environ) w (λ _ w',
            ∀ name, count_of name (w_store w') = count_of name (w_store w)))
    as Hwp by exact Hwp.
  set (P := λ (_ : outcome value) (w' : world vector),
              ∀ name, count_of name (w_store w') = count_of name (w_store w)).
  assert (∀ e (w' : world vector),
            (∀ name, count_of name (w_store w') = count_of name (w_store w)) →
            wp (bind (logger ERROR ("Setup failed: " ++ exn_str e)%string)
                  (λ _, raise e)) w' P) as Hhandler.
  { intros e w' Hw'. wp_step. wp_step. by wp_step. }
  unfold main, int_of_str. wp_step.
  destruct (py_int _) as [port|]; [| by apply wp_raise].
  wp_step. wp_step. wp_step. wp_step. wp_step.
  eapply wp_mono; [apply setup_chroma_client_store |].
  intros [client|e] w1 Hw1; cbn [w_store] in Hw1;
    [| apply Hhandler; by rewrite Hw1].
  wp_step. eapply wp_mono;
    [apply wp_conj; [apply create_collections_writes | apply create_collections_handles] |].
  intros [collections|e] w2 [[[Hentries _] _] Hd]; rewrite Hw1 in Hentries.
  2: { apply Hhandler. intros name. unfold count_of.
       by rewrite Hentries; [| apply not_elem_of_nil]. }
  destruct Hd as (c1 & c2 & c3 & -> & H1 & _ & H3).
  assert (∀ name, entries_of name (w_store w2) = entries_of name (w_store w)) as Hsame.
  { intros name. apply Hentries, not_elem_of_nil. }
  wp_step. rewrite dict_getitem_themes. wp_step. wp_step.
  eapply wp_mono; [apply populate_relationship_themes_from_run |].
  intros o w3 Hpost3.
  assert (∀ name, count_of name (w_store w3) = count_of name (w_store w)) as Hw3.
  { intros name. transitivity (count_of name (w_store w2));
      [| unfold count_of; by rewrite Hsame].
    eapply (populate_post_counts _ _ _ _ _ _ _ _ c1);
      [| | by apply resolve_named | | exact Hpost3];
      [by rewrite !length_fmap | by rewrite !length_fmap |].
    unfold holds_ids.
    assert (c_entries c1 = entries_of "relationship_themes" (w_store w)) as ->;
      [| done].
    rewrite <- Hsame. unfold entries_of. by rewrite H1. }
  destruct o as [v|e]; [| by apply Hhandler].
  assert (collections (w_store w3) !! "game_contexts" = Some c3) as H3'.
  { destruct Hpost3 as (? & _ & _ & _ & _ & _ & _ & c & _ & ->).
    cbn [collections h_name]. by rewrite lookup_insert_ne. }
  wp_step. rewrite dict_getitem_games. wp_step. wp_step.
  eapply wp_mono; [apply populate_game_contexts_from_run |].
  intros o w4 Hpost4.
  assert (∀ name, count_of name (w_store w4) = count_of name (w_store w)) as Hw4.
  { intros name. rewrite <- Hw3.
    eapply (populate_post_counts _ _ _ _ _ _ _ _ c3);
      [| | by apply resolve_named | | exact Hpost4];
      [by rewrite !length_fmap | by rewrite !length_fmap |].
    unfold holds_ids.
    assert (c_entries c3 = entries_of "game_contexts" (w_store w)) as ->; [| done].
    rewrite <- Hsame. unfold entries_of. by rewrite H3. }
  destruct o as [v'|e]; [| by apply Hhandler].
  wp_step. eapply wp_mono; [apply test_similarity_search_read_only |].
  intros o w5 [Hw5 _]. destruct o as [v''|e]; [| apply Hhandler; by rewrite Hw5].
  wp_step. wp_step. wp_step.
  eapply wp_mono; [apply report_counts_store |].
  intros o w6 Hw6. cbn [w_store] in Hw6. rewrite Hw5 in Hw6.
  destruct o as [[]|e]; [| apply Hhandler; by rewrite Hw6].
  wp_step. unfold P. by rewrite Hw6.
Qed.

End MainPaths.

(** * The further properties at work on the sample environment *)

Module FurtherRuns.

Import Sample Scenarios SampleRuns.

Lemma setup_chroma_client_outcomes_witness :
  (setup_chroma_client (env := unreachable) "localhost" 8000 fresh).1 = Raise denied
  ∧ w_log (setup_chroma_client (env := unreachable) "localhost" 8000 fresh).2
    = [(ERROR, "Failed to connect to ChromaDB: connection refused")].
Proof.
  destruct (setup_chroma_client_outcomes (env := unreachable) "localhost" 8000 fresh)
    as (_ & _ & Hrun & Hlog).
  split; [exact Hrun |]. apply Hlog.
  apply (bool_decide_unpack _). vm_compute. exact I.
Defined.


Lemma main_connection_failure_witness :
  main (env := unreachable) ∅ fresh
  = (Raise denied,
     World (Store ∅ 0) [EvHttpClient "localhost" 8000]
       [ (INFO, "Starting ChromaDB setup for TERI Model...");
         (ERROR, "Failed to connect to ChromaDB: connection refused");
         (ERROR, "Setup failed: connection refused") ]).
Proof.
  refine (main_connection_failure (env := unreachable) ∅ 8000 denied fresh _ _ _).
  - vm_compute. reflexivity.
  - vm_compute. reflexivity.
  - apply (bool_decide_unpack _). vm_compute. exact I.
Defined.

Lemma verifier_queries_in_order_witness :
  ∃ evs, w_trace (test_similarity_search (env := sample)
                    [("relationship_themes", themes_handle)] seeded).2
         = w_trace seeded ++ evs
         ∧ evs `prefix_of` query_calls themes_handle test_queries
         ∧ match (test_similarity_search (env := sample)
                    [("relationship_themes", themes_handle)] seeded).1 with
           | Ok v => v = VNone ∧ evs = query_calls themes_handle test_queries
           | Raise _ => evs ≠ []
           end.
Proof.
  exact (verifier_queries_in_order (env := sample)
           [("relationship_themes", themes_handle)] themes_handle seeded eq_refl).
Defined.

Lemma verifier_needs_themes_key_witness :
  test_similarity_search (env := sample) [("game_contexts", games_handle)] fresh
  = (Raise (Exn "KeyError" "'relationship_themes'"),
     World (Store ∅ 0) [] [(INFO, "Testing similarity search...")]).
Proof.
  exact (verifier_needs_themes_key (env := sample)
           [("game_contexts", games_handle)] fresh eq_refl).
Defined.

Lemma verifier_needs_theme_metadata_witness :
  (test_similarity_search (env := sample) mislabeled seeded).1
  = Raise (Exn "KeyError" "'theme'").
Proof.
  assert (resolve games_handle (w_store seeded) = Some seeded_games) as Hgames
    by (apply some_default, (bool_decide_unpack _); vm_compute; exact I).
  assert (head (sample_nearest (c_entries seeded_games)
                  "I'm so tired of doing all the housework" 3) = Some first_hit)
    as Hhit
    by (apply some_default, (bool_decide_unpack _); vm_compute; exact I).
  assert (first_hit.1.2 ≫= (.!! "theme") = None) as Hnone
    by (vm_compute; reflexivity).
  destruct (verifier_needs_theme_metadata (env := sample) mislabeled games_handle
              seeded seeded_games first_hit eq_refl eq_refl Hgames Hhit Hnone)
    as [Hrun _].
  etransitivity; [exact Hrun |].
  assert (is_Some first_hit.1.2) as [md ->]
    by (apply (bool_decide_unpack _); vm_compute; exact I).
  reflexivity.
Defined.

Lemma misread_failure_surfaces_as_missing_collection_witness :
  create_collections_step (env := confusing) (Client "localhost" 8000)
    "relationship_themes"
    "Semantic themes for relationship conflicts and conversations" [] fresh
  = (Raise (no_such_collection (env := confusing) "relationship_themes"),
     World (Store ∅ 0)
       [ EvCreateCollection "relationship_themes"
           {[ "description" :=
                MStr "Semantic themes for relationship conflicts and conversations" ]};
         EvGetCollection "relationship_themes" ]
       []).
Proof.
  refine (misread_failure_surfaces_as_missing_collection (env := confusing)
            (Client "localhost" 8000) "relationship_themes"
            "Semantic themes for relationship conflicts and conversations"
            [] fresh
            (World (Store ∅ 0)
               [ EvCreateCollection "relationship_themes"
                   {[ "description" :=
                        MStr "Semantic themes for relationship conflicts and conversations" ]} ]
               [])
            other_conflict _ _ _ _).
  - vm_compute. reflexivity.
  - vm_compute. reflexivity.
  - reflexivity.
  - reflexivity.
Defined.

Lemma populate_keeps_foreign_records_witness :
  entries_of "relationship_themes"
    (w_store (populate_relationship_themes_from (env := sample)
                RELATIONSHIP_THEMES themes_handle seeded).2) !! "iwr_daily_checkin"
  = entries_of "relationship_themes" (w_store seeded) !! "iwr_daily_checkin".
Proof.
  refine (proj1 (populate_keeps_foreign_records (env := sample)
                   RELATIONSHIP_THEMES game_contexts themes_handle seeded
                   "iwr_daily_checkin") _).
  apply (bool_decide_unpack _). vm_compute. exact I.
Defined.


Lemma repopulate_does_not_refresh_witness :
  entries_of "relationship_themes"
    (w_store (populate_relationship_themes_from (env := sample)
                RELATIONSHIP_THEMES themes_handle seeded).2)
  = c_entries seeded_themes.
Proof.
  assert (resolve themes_handle (w_store seeded) = Some seeded_themes) as Hthemes
    by (apply some_default, (bool_decide_unpack _); vm_compute; exact I).
  refine (proj1 (repopulate_does_not_refresh (env := sample)
                   RELATIONSHIP_THEMES game_contexts themes_handle seeded
                   seeded_themes _ Hthemes) _).
  - intros stored offered. reflexivity.
  - apply (bool_decide_unpack _). vm_compute. exact I.
Defined.

Lemma main_rerun_keeps_counts_witness :
  count_of "relationship_themes" (w_store (main (env := sample) ∅ seeded).2)
  = count_of "relationship_themes" (w_store seeded).
Proof.
  refine (main_rerun_keeps_counts (env := sample) ∅ seeded _ _ "relationship_themes").
  - apply (bool_decide_unpack _). vm_compute. exact I.
  - apply (bool_decide_unpack _). vm_compute. exact I.
Defined.

Lemma create_collections_does_not_roll_back_witness :
  (create_collections (env := history_refused) (Client "localhost" 8000) fresh).1
  = Raise denied
  ∧ collections (w_store (create_collections (env := history_refused)
                            (Client "localhost" 8000) fresh).2)
    = {[ "relationship_themes" := empty_themes ]}.
Proof.
  destruct (create_collections_does_not_roll_back (env := history_refused)
              (Client "localhost" 8000) fresh denied eq_refl eq_refl eq_refl eq_refl)
    as (Hrun & Hstore & _).
  split; [exact Hrun | exact Hstore].
Defined.

Lemma embedding_failure_writes_nothing_witness :
  (populate_relationship_themes_from (env := encoder_down)
     RELATIONSHIP_THEMES themes_handle created).1 = Raise out_of_memory
  ∧ w_store (populate_relationship_themes_from (env := encoder_down)
               RELATIONSHIP_THEMES themes_handle created).2
    = w_store created.
Proof.
  destruct (proj1 (proj1 (embedding_failure_writes_nothing (env := encoder_down)
                            RELATIONSHIP_THEMES game_contexts themes_handle created
                            out_of_memory))) as (Hrun & Hstore & _).
  - right. split; vm_compute; reflexivity.
  - split; [exact Hrun | exact Hstore].
Defined.

End FurtherRuns.
